(** * FreiStat: parameter validation for cyclic voltammetry

    Shallow embedding of [SetupCV.setup]
    (Python/FreiStat/Electrochemical_methods/Setup_behavior/setup_cv.py).

    The method receives a Python list of [[name, value]] pairs, derives a
    table of reference bounds from the two vertex values and the fixed
    working-electrode flag, checks arity, names, ranges and the scan range and
    returns an integer error code.  On success it calls three collaborators.

    Modelling choices.
    - A parameter list is a list of well-formed pairs of a name and a number,
      as the data model of the specification has it.  Lists with other
      elements (an entry without a value, a value that is not a number), on
      which Python raises further exceptions, are outside the embedding.
    - The main embedding takes the values and the numeric limits as Python
      ints: exact integers ([Z]), on which [<], [>], [>=], [==], [-], [+],
      [abs] and [* 2] are the mathematical operations.  What depends on the
      arithmetic being exact is said to do so where it is stated.
    - Module [Binary64] embeds the same method on Python floats (IEEE 754
      binary64, with rounding and NaN), to run it on float inputs.
    - Indexing a Python list out of range raises [IndexError]; the embedding
      keeps that outcome next to the normal [return].
    - The collaborators are opaque to this module: a call is recorded in a
      trace, in the order in which it is made, and is taken to return. *)

From Stdlib Require Import ZArith List String Bool Lia PrimFloat.
Import ListNotations.

Local Open Scope Z_scope.

(** ** Data *)

(** One element of [listExperimentParameters]: the pair [[name, value]];
    [entry_name] is index [0], [entry_value] is index [1]. *)
Record ParameterEntry : Type := mkEntry
  { entry_name : string;
    entry_value : Z }.

(** One row of [listReferenceList]: the triple [[name, lower, upper]]. *)
Record ReferenceBound : Type := mkRef
  { ref_name : string;
    ref_lower : Z;
    ref_upper : Z }.

(** ** Constants imported from [data_storage.constants] *)

(** Modelled from the spec: the module [data_storage/constants.py] is not
    among the sources.  The error codes follow the table in the docstring of
    [setup] (0, 11001, 11002, 11100 + i, 11200 + i) and section 6 of the
    specification (base + 1, base + 2, base + 100 + i, base + 200 + i). *)
Definition EC_NO_ERROR : Z := 0.
Definition EC_SETUP : Z := 11000.
Definition EC_SE_AMOUNT_PARAMETER : Z := 1.
Definition EC_SE_SCAN_RANGE_ERROR : Z := 2.
Definition EC_SE_PARAM_NOT_FOUND : Z := 100.
Definition EC_SE_PARAM_OUT_OF_BOUND : Z := 200.

(** Modelled from the spec: the expected number of entries for cyclic
    voltammetry (eleven required parameters in the docstring and the
    specification). *)
Definition CV_NUM_PARAMETER : nat := 11.

(** Modelled from the spec: the identifiers of the parameters, spelled as in
    the docstring of [setup], and the identifier of the experiment type. *)
Definition START_POTENTIAL : string := "StartVoltage".
Definition LOWER_POTENTIAL : string := "FirstVertex".
Definition UPPER_POTENTIAL : string := "SecondVertex".
Definition STEP_SIZE : string := "Stepsize".
Definition SCAN_RATE : string := "Scanrate".
Definition CYCLE : string := "Cycle".
Definition LPTIA_RTIA_SIZE : string := "LPTIA_Resistor".
Definition FIXED_WE_POTENTIAL : string := "FixedWEPotential".
Definition MAINS_FILTER : string := "MainsFilter".
Definition SINC2_OVERSAMPLING : string := "Sinc2_Oversampling".
Definition SINC3_OVERSAMPLING : string := "Sinc3_Oversampling".
Definition CV : string := "CV".

(** The numeric limits of [data_storage.constants] are configuration: the
    code is verified for every choice of them. *)
Class Limits : Type := mkLimits
  { VOLTAGE_RANGE : Z;
    VOLTAGE_RANGE_FWP : Z;
    MIN_STEP_SIZE : Z;
    MAX_STEP_SIZE : Z;
    MIN_SCAN_RATE : Z;
    MAX_SCAN_RATE : Z;
    MIN_CYCLE : Z;
    MAX_CYCLE : Z;
    LPTIARTIA_OPEN : Z;
    LPTIARTIA_512K : Z;
    ADCSINC2OSR_DISABLED : Z;
    ADCSINC2OSR_1333 : Z;
    ADCSINC3OSR_DISABLED : Z;
    ADCSINC3OSR_2 : Z }.

(** ** Effects: early return, exceptions and collaborator calls *)

Inductive exn : Type :=
  | IndexError.

(** The calls [setup] makes on [self._dataHandling] and on
    [self._dataSoftwareStorage._dataHandling]. *)
Inductive call : Type :=
  | save_ExperimentType (experimentType : string)
  | save_ExperimentParmeters (listExperimentParameters : list ParameterEntry)
  | setup_ExportFiles.

(** Outcome of a block of statements: control falls through with a value,
    the function executes [return], or an exception propagates. *)
Inductive outcome (A : Type) : Type :=
  | Next (a : A)
  | Return (iErrorCode : Z)
  | Raise (e : exn).

Arguments Next {A} a.
Arguments Return {A} iErrorCode.
Arguments Raise {A} e.

(** A block transforms the trace of collaborator calls made so far. *)
Definition M (A : Type) : Type := list call -> outcome A * list call.

Definition ret {A : Type} (a : A) : M A := fun tr => (Next a, tr).

Definition bind {A B : Type} (m : M A) (k : A -> M B) : M B :=
  fun tr =>
    match m tr with
    | (Next a, tr') => k a tr'
    | (Return c, tr') => (Return c, tr')
    | (Raise e, tr') => (Raise e, tr')
    end.

Definition do_return {A : Type} (iErrorCode : Z) : M A :=
  fun tr => (Return iErrorCode, tr).

Definition raise {A : Type} (e : exn) : M A := fun tr => (Raise e, tr).

Definition emit (c : call) : M unit := fun tr => (Next tt, tr ++ [c]).

Notation "x <- m ;; k" := (bind m (fun x => k))
  (at level 61, m at next level, right associativity).
Notation "' pat <- m ;; k" := (bind m (fun x => match x with pat => k end))
  (at level 61, pat pattern, m at next level, right associativity).
Notation "m ;;; k" := (bind m (fun _ => k))
  (at level 61, right associativity).

(** What the caller of a method observes. *)
Inductive result : Type :=
  | Returned (iErrorCode : Z)
  | Raised (e : exn).

Definition call_method (body : M Z) : result * list call :=
  match body [] with
  | (Next c, tr) => (Returned c, tr)
  | (Return c, tr) => (Returned c, tr)
  | (Raise e, tr) => (Raised e, tr)
  end.

(** [l[i]] for a non-negative literal or loop index [i]. *)
Definition item {A : Type} (l : list A) (i : nat) : M A :=
  match nth_error l i with
  | Some x => ret x
  | None => raise IndexError
  end.

(** [l[i][1]] *)
Definition value_at (l : list ParameterEntry) (i : nat) : M Z :=
  e <- item l i ;; ret (entry_value e).

(** ** The method *)

Section Setup.

Context {L : Limits}.

(** Lines 153-173: the literal that initialises [listReferenceList]. *)
Definition listReferenceList
    (fStartPotentialLB fStartPotentialUB fVoltageRange : Z)
  : list ReferenceBound :=
  [ mkRef START_POTENTIAL fStartPotentialLB fStartPotentialUB;
    mkRef LOWER_POTENTIAL
      (fStartPotentialUB - fVoltageRange) (fStartPotentialLB + fVoltageRange);
    mkRef UPPER_POTENTIAL
      (fStartPotentialUB - fVoltageRange) (fStartPotentialLB + fVoltageRange);
    mkRef STEP_SIZE MIN_STEP_SIZE MAX_STEP_SIZE;
    mkRef SCAN_RATE MIN_SCAN_RATE MAX_SCAN_RATE;
    mkRef CYCLE MIN_CYCLE MAX_CYCLE;
    mkRef LPTIA_RTIA_SIZE LPTIARTIA_OPEN LPTIARTIA_512K;
    mkRef FIXED_WE_POTENTIAL 0 1;
    mkRef MAINS_FILTER 0 1;
    mkRef SINC2_OVERSAMPLING ADCSINC2OSR_DISABLED ADCSINC2OSR_1333;
    mkRef SINC3_OVERSAMPLING ADCSINC3OSR_DISABLED ADCSINC3OSR_2 ].

(** Lines 129-173: everything [setup] computes before its first check.  The
    block yields [fRange], [fVoltageRange] and [listReferenceList]. *)
Definition derive (listExperimentParameters : list ParameterEntry)
  : M (Z * Z * list ReferenceBound) :=
  (* if listExperimentParameters[1][1] > listExperimentParameters[2][1]: *)
  a <- value_at listExperimentParameters 1 ;;
  b <- value_at listExperimentParameters 2 ;;
  '(fStartPotentialLB, fStartPotentialUB) <-
    (if a >? b then
       lb <- value_at listExperimentParameters 2 ;;
       ub <- value_at listExperimentParameters 1 ;;
       ret (lb, ub)
     else
       lb <- value_at listExperimentParameters 1 ;;
       ub <- value_at listExperimentParameters 2 ;;
       ret (lb, ub)) ;;
  (* fRange = abs(listExperimentParameters[2][1] - listExperimentParameters[1][1]) *)
  c <- value_at listExperimentParameters 2 ;;
  d <- value_at listExperimentParameters 1 ;;
  let fRange := Z.abs (c - d) in
  (* if listExperimentParameters[7][1] == 1: *)
  f <- value_at listExperimentParameters 7 ;;
  let fVoltageRange :=
    if f =? 1 then VOLTAGE_RANGE_FWP else VOLTAGE_RANGE * 2 in
  ret (fRange, fVoltageRange,
       listReferenceList fStartPotentialLB fStartPotentialUB fVoltageRange).

(** Lines 182-194: the loop [for iEntry in range(len(...))], by recursion on
    the indices that remain to be visited. *)
Fixpoint check_entries
    (listExperimentParameters : list ParameterEntry)
    (listReferenceList : list ReferenceBound)
    (range : list nat) : M unit :=
  match range with
  | [] => ret tt
  | iEntry :: range' =>
      p <- item listExperimentParameters iEntry ;;
      r <- item listReferenceList iEntry ;;
      if negb (entry_name p =? ref_name r)%string then
        do_return (EC_SETUP + EC_SE_PARAM_NOT_FOUND + Z.of_nat iEntry)
      else if (entry_value p <? ref_lower r) || (entry_value p >? ref_upper r)
      then
        do_return (EC_SETUP + EC_SE_PARAM_OUT_OF_BOUND + Z.of_nat iEntry)
      else
        check_entries listExperimentParameters listReferenceList range'
  end.

(** Lines 196-209: the scan-range check, the collaborator calls and the
    final [return iErrorCode]. *)
Definition finish (listExperimentParameters : list ParameterEntry)
    (iErrorCode fRange fVoltageRange : Z) : M Z :=
  (if fRange >=? fVoltageRange then
     do_return (EC_SETUP + EC_SE_SCAN_RANGE_ERROR)
   else ret tt) ;;;
  emit (save_ExperimentType CV) ;;;
  emit (save_ExperimentParmeters listExperimentParameters) ;;;
  emit setup_ExportFiles ;;;
  ret iErrorCode.

(** Lines 127-209: the body of [SetupCV.setup]. *)
Definition setup_body (listExperimentParameters : list ParameterEntry)
  : M Z :=
  let iErrorCode := EC_NO_ERROR in
  '(fRange, fVoltageRange, listReferenceList) <-
    derive listExperimentParameters ;;
  (* if len(listExperimentParameters) != CV_NUM_PARAMETER: *)
  (if negb (List.length listExperimentParameters =? CV_NUM_PARAMETER)%nat then
     do_return (EC_SETUP + EC_SE_AMOUNT_PARAMETER)
   else ret tt) ;;;
  check_entries listExperimentParameters listReferenceList
    (seq 0 (List.length listExperimentParameters)) ;;;
  finish listExperimentParameters iErrorCode fRange fVoltageRange.

Definition setup (listExperimentParameters : list ParameterEntry)
  : result * list call :=
  call_method (setup_body listExperimentParameters).

(** ** Vocabulary of the statements *)

(** The name check of line 184 succeeds. *)
Definition name_ok (r : ReferenceBound) (p : ParameterEntry) : bool :=
  (entry_name p =? ref_name r)%string.

(** The range check of lines 189-192 succeeds. *)
Definition in_bounds (r : ReferenceBound) (p : ParameterEntry) : bool :=
  (ref_lower r <=? entry_value p) && (entry_value p <=? ref_upper r).

(** Position [i] exists in both lists and survives both checks. *)
Definition passes (l : list ParameterEntry) (ref : list ReferenceBound)
    (i : nat) : bool :=
  match nth_error l i, nth_error ref i with
  | Some p, Some r => name_ok r p && in_bounds r p
  | _, _ => false
  end.

(** The three collaborator calls of the success path, in program order. *)
Definition success_calls (l : list ParameterEntry) : list call :=
  [save_ExperimentType CV; save_ExperimentParmeters l; setup_ExportFiles].

(** Every check of the method holds for [l], against the table [ref], the
    scan span [fRange] and the envelope [fVoltageRange]. *)
Definition all_checks (l : list ParameterEntry) (ref : list ReferenceBound)
    (fRange fVoltageRange : Z) : bool :=
  (List.length l =? CV_NUM_PARAMETER)%nat
  && forallb (passes l ref) (seq 0 CV_NUM_PARAMETER)
  && (fRange <? fVoltageRange).

(** Assumption on the configuration: both envelopes are positive and every
    fixed row of the table is a non-empty interval. *)
Definition limits_ordered : bool :=
  (0 <? VOLTAGE_RANGE) && (0 <? VOLTAGE_RANGE_FWP)
  && (MIN_STEP_SIZE <=? MAX_STEP_SIZE)
  && (MIN_SCAN_RATE <=? MAX_SCAN_RATE)
  && (MIN_CYCLE <=? MAX_CYCLE)
  && (LPTIARTIA_OPEN <=? LPTIARTIA_512K)
  && (ADCSINC2OSR_DISABLED <=? ADCSINC2OSR_1333)
  && (ADCSINC3OSR_DISABLED <=? ADCSINC3OSR_2).

(** A parameter list in the order of [listReferenceList], with the given
    start potential, vertices and fixed-WE flag and the smallest admitted
    value in every other field. *)
Definition cv_parameters (fStart fFirst fSecond iFixed : Z)
  : list ParameterEntry :=
  [ mkEntry START_POTENTIAL fStart;
    mkEntry LOWER_POTENTIAL fFirst;
    mkEntry UPPER_POTENTIAL fSecond;
    mkEntry STEP_SIZE MIN_STEP_SIZE;
    mkEntry SCAN_RATE MIN_SCAN_RATE;
    mkEntry CYCLE MIN_CYCLE;
    mkEntry LPTIA_RTIA_SIZE LPTIARTIA_OPEN;
    mkEntry FIXED_WE_POTENTIAL iFixed;
    mkEntry MAINS_FILTER 0;
    mkEntry SINC2_OVERSAMPLING ADCSINC2OSR_DISABLED;
    mkEntry SINC3_OVERSAMPLING ADCSINC3OSR_DISABLED ].

End Setup.

(** The same list with the values of the entries at positions 1 and 2
    exchanged; names and all other entries are kept. *)
Definition swap_vertices (l : list ParameterEntry) : list ParameterEntry :=
  match l with
  | e0 :: e1 :: e2 :: rest =>
      e0 :: mkEntry (entry_name e1) (entry_value e2)
         :: mkEntry (entry_name e2) (entry_value e1) :: rest
  | _ => l
  end.

(** The same list with the value of the entry at position [i] replaced. *)
Fixpoint set_value (i : nat) (v : Z) (l : list ParameterEntry)
  : list ParameterEntry :=
  match l, i with
  | [], _ => []
  | e :: rest, O => mkEntry (entry_name e) v :: rest
  | e :: rest, S i' => e :: set_value i' v rest
  end.

(** The names the table checks, position by position. *)
Definition code_positional_names : list string :=
  [ START_POTENTIAL; LOWER_POTENTIAL; UPPER_POTENTIAL; STEP_SIZE; SCAN_RATE;
    CYCLE; LPTIA_RTIA_SIZE; FIXED_WE_POTENTIAL; MAINS_FILTER;
    SINC2_OVERSAMPLING; SINC3_OVERSAMPLING ].

(** The positional names as the specification lists them (section 3):
    FixedWEPotential at position 6 and LPTIA_Resistor at position 7. *)
Definition spec_positional_names : list string :=
  [ "StartVoltage"; "FirstVertex"; "SecondVertex"; "Stepsize"; "Scanrate";
    "Cycle"; "FixedWEPotential"; "LPTIA_Resistor"; "MainsFilter";
    "Sinc2_Oversampling"; "Sinc3_Oversampling" ]%string.

(** What the loop can do: run to its end, stop at the first position that
    fails a check, or hit a missing position. *)
Inductive loop_stop (l : list ParameterEntry) (ref : list ReferenceBound)
    (range : list nat) : outcome unit -> Prop :=
  | stop_end :
      forallb (passes l ref) range = true ->
      loop_stop l ref range (Next tt)
  | stop_name (pre post : list nat) (i : nat)
      (p : ParameterEntry) (r : ReferenceBound) :
      range = pre ++ i :: post ->
      forallb (passes l ref) pre = true ->
      nth_error l i = Some p -> nth_error ref i = Some r ->
      name_ok r p = false ->
      loop_stop l ref range
        (Return (EC_SETUP + EC_SE_PARAM_NOT_FOUND + Z.of_nat i))
  | stop_bound (pre post : list nat) (i : nat)
      (p : ParameterEntry) (r : ReferenceBound) :
      range = pre ++ i :: post ->
      forallb (passes l ref) pre = true ->
      nth_error l i = Some p -> nth_error ref i = Some r ->
      name_ok r p = true -> in_bounds r p = false ->
      loop_stop l ref range
        (Return (EC_SETUP + EC_SE_PARAM_OUT_OF_BOUND + Z.of_nat i))
  | stop_missing (pre post : list nat) (i : nat) :
      range = pre ++ i :: post ->
      forallb (passes l ref) pre = true ->
      nth_error l i = None \/ nth_error ref i = None ->
      loop_stop l ref range (Raise IndexError).

(** ** Concrete inputs *)

(** Modelled from the spec: one configuration of the absent constants, used
    to run the method on concrete lists.  The envelopes follow the comment at
    line 143 (2.1 V fixed, 4.0 V otherwise, in mV) and the resistor range the
    docstring; the remaining limits are sample values. *)
Definition sample_limits : Limits :=
  {| VOLTAGE_RANGE := 2000; VOLTAGE_RANGE_FWP := 2100;
     MIN_STEP_SIZE := 1; MAX_STEP_SIZE := 100;
     MIN_SCAN_RATE := 1; MAX_SCAN_RATE := 1000;
     MIN_CYCLE := 1; MAX_CYCLE := 100;
     LPTIARTIA_OPEN := 0; LPTIARTIA_512K := 512000;
     ADCSINC2OSR_DISABLED := 0; ADCSINC2OSR_1333 := 1333;
     ADCSINC3OSR_DISABLED := 0; ADCSINC3OSR_2 := 2 |}.

(** The success scenario of section 8 of the specification, entries in the
    order the specification gives. *)
Definition spec_scenario : list ParameterEntry :=
  [ mkEntry "StartVoltage" 0; mkEntry "FirstVertex" 500;
    mkEntry "SecondVertex" (-500); mkEntry "Stepsize" 2;
    mkEntry "Scanrate" 50; mkEntry "Cycle" 2;
    mkEntry "FixedWEPotential" 0; mkEntry "LPTIA_Resistor" 1000;
    mkEntry "MainsFilter" 0; mkEntry "Sinc2_Oversampling" 667;
    mkEntry "Sinc3_Oversampling" 0 ].

(** The same scenario with the entries at positions 6 and 7 in the order of
    [listReferenceList]. *)
Definition code_scenario : list ParameterEntry :=
  [ mkEntry "StartVoltage" 0; mkEntry "FirstVertex" 500;
    mkEntry "SecondVertex" (-500); mkEntry "Stepsize" 2;
    mkEntry "Scanrate" 50; mkEntry "Cycle" 2;
    mkEntry "LPTIA_Resistor" 1000; mkEntry "FixedWEPotential" 0;
    mkEntry "MainsFilter" 0; mkEntry "Sinc2_Oversampling" 667;
    mkEntry "Sinc3_Oversampling" 0 ].

(** Vertices 0 and 2100 with the fixed-WE flag set: under [sample_limits] the
    span equals the fixed-mode envelope and every field sits in its row. *)
Definition boundary_scenario : list ParameterEntry :=
  [ mkEntry "StartVoltage" 0; mkEntry "FirstVertex" 0;
    mkEntry "SecondVertex" 2100; mkEntry "Stepsize" 1;
    mkEntry "Scanrate" 50; mkEntry "Cycle" 2;
    mkEntry "LPTIA_Resistor" 1000; mkEntry "FixedWEPotential" 1;
    mkEntry "MainsFilter" 0; mkEntry "Sinc2_Oversampling" 667;
    mkEntry "Sinc3_Oversampling" 0 ].

(** Twelve entries: [code_scenario] followed by one more pair. *)
Definition long_scenario : list ParameterEntry :=
  code_scenario ++ [ mkEntry "Sinc3_Oversampling" 0 ].

(** ** Transformations of the three potentials *)

(** The same list with [f] applied to the values of the entries at positions
    0, 1 and 2 (start potential and both vertices); names and all other
    entries are kept.  Lists with fewer than three entries are left alone. *)
Definition map_potentials (f : Z -> Z) (l : list ParameterEntry)
  : list ParameterEntry :=
  match l with
  | e0 :: e1 :: e2 :: rest =>
      mkEntry (entry_name e0) (f (entry_value e0))
      :: mkEntry (entry_name e1) (f (entry_value e1))
      :: mkEntry (entry_name e2) (f (entry_value e2)) :: rest
  | _ => l
  end.

(** All three potentials moved by the same offset [d]. *)
Definition shift_potentials (d : Z) : list ParameterEntry -> list ParameterEntry :=
  map_potentials (fun v => v + d).

(** All three potentials with their sign changed. *)
Definition mirror_potentials : list ParameterEntry -> list ParameterEntry :=
  map_potentials Z.opp.

(** ** The method on binary64 values *)

(** The same method, with the values of the entries and the numeric limits
    as Python floats.  Comparisons with a NaN are false and every arithmetic
    result is rounded, as in Python. *)
Module Binary64.

Record ParameterEntry : Type := mkEntry
  { entry_name : string;
    entry_value : float }.

Record ReferenceBound : Type := mkRef
  { ref_name : string;
    ref_lower : float;
    ref_upper : float }.

Record Limits : Type := mkLimits
  { VOLTAGE_RANGE : float;
    VOLTAGE_RANGE_FWP : float;
    MIN_STEP_SIZE : float;
    MAX_STEP_SIZE : float;
    MIN_SCAN_RATE : float;
    MAX_SCAN_RATE : float;
    MIN_CYCLE : float;
    MAX_CYCLE : float;
    LPTIARTIA_OPEN : float;
    LPTIARTIA_512K : float;
    ADCSINC2OSR_DISABLED : float;
    ADCSINC2OSR_1333 : float;
    ADCSINC3OSR_DISABLED : float;
    ADCSINC3OSR_2 : float }.

Inductive call : Type :=
  | save_ExperimentType (experimentType : string)
  | save_ExperimentParmeters (listExperimentParameters : list ParameterEntry)
  | setup_ExportFiles.

(** Python's [a > b] and [a >= b] on floats. *)
Definition gtb (a b : float) : bool := PrimFloat.ltb b a.
Definition geb (a b : float) : bool := PrimFloat.leb b a.

(** Lines 153-173. *)
Definition listReferenceList (L : Limits)
    (fStartPotentialLB fStartPotentialUB fVoltageRange : float)
  : list ReferenceBound :=
  [ mkRef START_POTENTIAL fStartPotentialLB fStartPotentialUB;
    mkRef LOWER_POTENTIAL
      (PrimFloat.sub fStartPotentialUB fVoltageRange)
      (PrimFloat.add fStartPotentialLB fVoltageRange);
    mkRef UPPER_POTENTIAL
      (PrimFloat.sub fStartPotentialUB fVoltageRange)
      (PrimFloat.add fStartPotentialLB fVoltageRange);
    mkRef STEP_SIZE (MIN_STEP_SIZE L) (MAX_STEP_SIZE L);
    mkRef SCAN_RATE (MIN_SCAN_RATE L) (MAX_SCAN_RATE L);
    mkRef CYCLE (MIN_CYCLE L) (MAX_CYCLE L);
    mkRef LPTIA_RTIA_SIZE (LPTIARTIA_OPEN L) (LPTIARTIA_512K L);
    mkRef FIXED_WE_POTENTIAL 0%float 1%float;
    mkRef MAINS_FILTER 0%float 1%float;
    mkRef SINC2_OVERSAMPLING (ADCSINC2OSR_DISABLED L) (ADCSINC2OSR_1333 L);
    mkRef SINC3_OVERSAMPLING (ADCSINC3OSR_DISABLED L) (ADCSINC3OSR_2 L) ].

(** Lines 129-173; [None] stands for the [IndexError] of a missing position
    1, 2 or 7 (read in this order). *)
Definition derive (L : Limits) (listExperimentParameters : list ParameterEntry)
  : option (float * float * list ReferenceBound) :=
  match nth_error listExperimentParameters 1,
        nth_error listExperimentParameters 2 with
  | Some e1, Some e2 =>
      let (fStartPotentialLB, fStartPotentialUB) :=
        if gtb (entry_value e1) (entry_value e2)
        then (entry_value e2, entry_value e1)
        else (entry_value e1, entry_value e2) in
      let fRange :=
        PrimFloat.abs (PrimFloat.sub (entry_value e2) (entry_value e1)) in
      match nth_error listExperimentParameters 7 with
      | Some e7 =>
          let fVoltageRange :=
            if PrimFloat.eqb (entry_value e7) 1%float
            then VOLTAGE_RANGE_FWP L
            else PrimFloat.mul (VOLTAGE_RANGE L) 2%float in
          Some (fRange, fVoltageRange,
                listReferenceList L fStartPotentialLB fStartPotentialUB
                  fVoltageRange)
      | None => None
      end
  | _, _ => None
  end.

(** Lines 182-194. *)
Fixpoint check_entries
    (listExperimentParameters : list ParameterEntry)
    (listReferenceList : list ReferenceBound)
    (range : list nat) : outcome unit :=
  match range with
  | [] => Next tt
  | iEntry :: range' =>
      match nth_error listExperimentParameters iEntry,
            nth_error listReferenceList iEntry with
      | Some p, Some r =>
          if negb (entry_name p =? ref_name r)%string then
            Return (EC_SETUP + EC_SE_PARAM_NOT_FOUND + Z.of_nat iEntry)
          else if PrimFloat.ltb (entry_value p) (ref_lower r)
                  || gtb (entry_value p) (ref_upper r)
          then
            Return (EC_SETUP + EC_SE_PARAM_OUT_OF_BOUND + Z.of_nat iEntry)
          else
            check_entries listExperimentParameters listReferenceList range'
      | _, _ => Raise IndexError
      end
  end.

(** Lines 127-209: [SetupCV.setup] with its result and the collaborator
    calls it has made. *)
Definition setup (L : Limits) (listExperimentParameters : list ParameterEntry)
  : result * list call :=
  let iErrorCode := EC_NO_ERROR in
  match derive L listExperimentParameters with
  | None => (Raised IndexError, [])
  | Some (fRange, fVoltageRange, listReferenceList) =>
      if negb (List.length listExperimentParameters =? CV_NUM_PARAMETER)%nat
      then (Returned (EC_SETUP + EC_SE_AMOUNT_PARAMETER), [])
      else
        match check_entries listExperimentParameters listReferenceList
                (seq 0 (List.length listExperimentParameters)) with
        | Return c => (Returned c, [])
        | Raise e => (Raised e, [])
        | Next _ =>
            if geb fRange fVoltageRange
            then (Returned (EC_SETUP + EC_SE_SCAN_RANGE_ERROR), [])
            else (Returned iErrorCode,
                  [ save_ExperimentType CV;
                    save_ExperimentParmeters listExperimentParameters;
                    setup_ExportFiles ])
        end
  end.

(** The same list with the values of the entries at positions 1 and 2
    exchanged. *)
Definition swap_vertices (l : list ParameterEntry) : list ParameterEntry :=
  match l with
  | e0 :: e1 :: e2 :: rest =>
      e0 :: mkEntry (entry_name e1) (entry_value e2)
         :: mkEntry (entry_name e2) (entry_value e1) :: rest
  | _ => l
  end.

(** Modelled from the spec: the configuration [sample_limits], as floats. *)
Definition sample_limits : Limits :=
  {| VOLTAGE_RANGE := 2000; VOLTAGE_RANGE_FWP := 2100;
     MIN_STEP_SIZE := 1; MAX_STEP_SIZE := 100;
     MIN_SCAN_RATE := 1; MAX_SCAN_RATE := 1000;
     MIN_CYCLE := 1; MAX_CYCLE := 100;
     LPTIARTIA_OPEN := 0; LPTIARTIA_512K := 512000;
     ADCSINC2OSR_DISABLED := 0; ADCSINC2OSR_1333 := 1333;
     ADCSINC3OSR_DISABLED := 0; ADCSINC3OSR_2 := 2 |}%float.

(** A list in table order with the given start potential and vertices, the
    fixed-WE flag at 0 and the other fields as in [code_scenario]. *)
Definition scenario (fStart fFirst fSecond : float) : list ParameterEntry :=
  [ mkEntry "StartVoltage" fStart; mkEntry "FirstVertex" fFirst;
    mkEntry "SecondVertex" fSecond; mkEntry "Stepsize" 2%float;
    mkEntry "Scanrate" 50%float; mkEntry "Cycle" 2%float;
    mkEntry "LPTIA_Resistor" 1000%float; mkEntry "FixedWEPotential" 0%float;
    mkEntry "MainsFilter" 0%float; mkEntry "Sinc2_Oversampling" 667%float;
    mkEntry "Sinc3_Oversampling" 0%float ].

(** The floats nearest to -2193.8 and to 1806.2 (Python's [-2193.8] and
    [1806.2]), written exactly. *)
Definition minus_2193_8 : float := (-0x1.123999999999ap+11)%float.
Definition plus_1806_2 : float := 0x1.c38cccccccccdp+10%float.

End Binary64.

(** * Properties *)

Section SetupFacts.

Context {L : Limits}.

(** ** The range test of the source and the interval reading *)

Lemma out_of_bounds_negb (r : ReferenceBound) (p : ParameterEntry) :
  (entry_value p <? ref_lower r) || (entry_value p >? ref_upper r)
  = negb (in_bounds r p).
Proof.
  unfold in_bounds.
  rewrite negb_andb, Z.gtb_ltb, <- Z.ltb_antisym, <- Z.ltb_antisym.
  reflexivity.
Qed.

Lemma in_bounds_iff (r : ReferenceBound) (p : ParameterEntry) :
  in_bounds r p = true <-> ref_lower r <= entry_value p <= ref_upper r.
Proof.
  unfold in_bounds. rewrite andb_true_iff, !Z.leb_le. tauto.
Qed.

Lemma in_bounds_false_iff (r : ReferenceBound) (p : ParameterEntry) :
  in_bounds r p = false
  <-> entry_value p < ref_lower r \/ ref_upper r < entry_value p.
Proof.
  unfold in_bounds. rewrite andb_false_iff, !Z.leb_gt. tauto.
Qed.

(** ** The block before the checks *)

(** [derive] raises exactly when one of the positions 1, 2, 7 is missing;
    otherwise it yields the span, the envelope and the table, and leaves the
    trace alone. *)
Lemma derive_cases (l : list ParameterEntry) (tr : list call) :
  derive l tr =
  match nth_error l 1, nth_error l 2, nth_error l 7 with
  | Some e1, Some e2, Some e7 =>
      let fVoltageRange :=
        if entry_value e7 =? 1 then VOLTAGE_RANGE_FWP else VOLTAGE_RANGE * 2 in
      (Next (Z.abs (entry_value e2 - entry_value e1), fVoltageRange,
             listReferenceList
               (Z.min (entry_value e1) (entry_value e2))
               (Z.max (entry_value e1) (entry_value e2)) fVoltageRange), tr)
  | _, _, _ => (Raise IndexError, tr)
  end.
Proof.
  unfold derive, value_at, item, bind, ret, raise.
  destruct (nth_error l 1) as [e1|]; [|reflexivity].
  destruct (nth_error l 2) as [e2|]; [|reflexivity].
  destruct (entry_value e1 >? entry_value e2) eqn:Hgt.
  - destruct (nth_error l 7) as [e7|]; [|reflexivity].
    cbv zeta. rewrite Z.gtb_ltb, Z.ltb_lt in Hgt.
    rewrite Z.min_r, Z.max_l by lia. reflexivity.
  - destruct (nth_error l 7) as [e7|]; [|reflexivity].
    cbv zeta. rewrite Z.gtb_ltb, Z.ltb_ge in Hgt.
    rewrite Z.min_l, Z.max_r by lia. reflexivity.
Qed.

Lemma derive_short (l : list ParameterEntry) (tr : list call) :
  (List.length l < 8)%nat -> derive l tr = (Raise IndexError, tr).
Proof.
  intros Hlen. rewrite derive_cases.
  assert (H7 : nth_error l 7 = None) by (apply nth_error_None; lia).
  rewrite H7.
  destruct (nth_error l 1); [|reflexivity].
  destruct (nth_error l 2); reflexivity.
Qed.

Lemma derive_long (l : list ParameterEntry) (tr : list call) :
  (8 <= List.length l)%nat ->
  exists fRange fVoltageRange lb ub,
    derive l tr =
    (Next (fRange, fVoltageRange, listReferenceList lb ub fVoltageRange), tr).
Proof.
  intros Hlen. rewrite derive_cases.
  destruct (nth_error l 1) as [e1|] eqn:H1;
    [|apply nth_error_None in H1; lia].
  destruct (nth_error l 2) as [e2|] eqn:H2;
    [|apply nth_error_None in H2; lia].
  destruct (nth_error l 7) as [e7|] eqn:H7;
    [|apply nth_error_None in H7; lia].
  eauto 6.
Qed.

Lemma derive_trace (l : list ParameterEntry) (tr tr' : list call)
    (o : outcome (Z * Z * list ReferenceBound)) :
  derive l tr = (o, tr') -> tr' = tr.
Proof.
  rewrite derive_cases.
  destruct (nth_error l 1); [|congruence].
  destruct (nth_error l 2); [|congruence].
  destruct (nth_error l 7); cbv zeta; congruence.
Qed.

(** The table [derive] builds always has eleven rows. *)
Lemma derive_table (l : list ParameterEntry) (tr tr' : list call)
    (fRange fVoltageRange : Z) (ref : list ReferenceBound) :
  derive l tr = (Next (fRange, fVoltageRange, ref), tr') ->
  exists lb ub, ref = listReferenceList lb ub fVoltageRange.
Proof.
  rewrite derive_cases.
  destruct (nth_error l 1); [|congruence].
  destruct (nth_error l 2); [|congruence].
  destruct (nth_error l 7); [|congruence].
  cbv zeta. intros H. injection H as _ <- <- _. eauto.
Qed.

(** ** The loop over the entries *)

Lemma check_entries_cons (l : list ParameterEntry)
    (ref : list ReferenceBound) (i : nat) (range : list nat)
    (p : ParameterEntry) (r : ReferenceBound) (tr : list call) :
  nth_error l i = Some p ->
  nth_error ref i = Some r ->
  check_entries l ref (i :: range) tr =
  if negb (name_ok r p) then
    (Return (EC_SETUP + EC_SE_PARAM_NOT_FOUND + Z.of_nat i), tr)
  else if negb (in_bounds r p) then
    (Return (EC_SETUP + EC_SE_PARAM_OUT_OF_BOUND + Z.of_nat i), tr)
  else check_entries l ref range tr.
Proof.
  intros Hp Hr. cbn [check_entries]. unfold bind, item.
  rewrite Hp, Hr. unfold ret. rewrite out_of_bounds_negb. unfold name_ok.
  destruct (entry_name p =? ref_name r)%string; cbn [negb]; [|reflexivity].
  destruct (in_bounds r p); reflexivity.
Qed.

Lemma check_entries_missing (l : list ParameterEntry)
    (ref : list ReferenceBound) (i : nat) (range : list nat)
    (tr : list call) :
  nth_error l i = None \/ nth_error ref i = None ->
  check_entries l ref (i :: range) tr = (Raise IndexError, tr).
Proof.
  intros H. cbn [check_entries]. unfold bind, item.
  destruct (nth_error l i); [|reflexivity].
  destruct H as [H|H]; [discriminate|]. rewrite H. reflexivity.
Qed.

Lemma passes_inv (l : list ParameterEntry) (ref : list ReferenceBound)
    (i : nat) :
  passes l ref i = true ->
  exists p r, nth_error l i = Some p /\ nth_error ref i = Some r
              /\ name_ok r p = true /\ in_bounds r p = true.
Proof.
  unfold passes.
  destruct (nth_error l i) as [p|]; [|discriminate].
  destruct (nth_error ref i) as [r|]; [|discriminate].
  rewrite andb_true_iff. eauto 6.
Qed.

Lemma passes_intro (l : list ParameterEntry) (ref : list ReferenceBound)
    (i : nat) (p : ParameterEntry) (r : ReferenceBound) :
  nth_error l i = Some p -> nth_error ref i = Some r ->
  name_ok r p = true -> in_bounds r p = true -> passes l ref i = true.
Proof.
  intros Hp Hr Hn Hb. unfold passes. rewrite Hp, Hr, Hn, Hb. reflexivity.
Qed.

(** Positions that pass are skipped: the loop goes on with the next index. *)
Lemma check_entries_skip (l : list ParameterEntry)
    (ref : list ReferenceBound) (pre rest : list nat) (tr : list call) :
  forallb (passes l ref) pre = true ->
  check_entries l ref (pre ++ rest) tr = check_entries l ref rest tr.
Proof.
  induction pre as [|i pre IH]; intros Hall; [reflexivity|].
  cbn [forallb] in Hall. apply andb_true_iff in Hall as [Hi Hpre].
  destruct (passes_inv _ _ _ Hi) as (p & r & Hp & Hr & Hn & Hb).
  rewrite <- app_comm_cons, (check_entries_cons _ _ _ _ _ _ _ Hp Hr).
  rewrite Hn, Hb. cbn [negb]. auto.
Qed.

Lemma check_entries_pass (l : list ParameterEntry)
    (ref : list ReferenceBound) (range : list nat) (tr : list call) :
  forallb (passes l ref) range = true ->
  check_entries l ref range tr = (Next tt, tr).
Proof.
  intros Hall. rewrite <- (app_nil_r range).
  rewrite check_entries_skip by assumption. reflexivity.
Qed.

Lemma loop_stop_cons (l : list ParameterEntry) (ref : list ReferenceBound)
    (i : nat) (range : list nat) (o : outcome unit) :
  passes l ref i = true ->
  loop_stop l ref range o -> loop_stop l ref (i :: range) o.
Proof.
  intros Hi H.
  destruct H as [Hall|pre post j p r -> Hpre Hp Hr Hn
                |pre post j p r -> Hpre Hp Hr Hn Hb|pre post j -> Hpre Hm].
  - apply stop_end. cbn [forallb]. rewrite Hi, Hall. reflexivity.
  - apply (stop_name _ _ _ (i :: pre) post j p r); auto.
    cbn [forallb]. rewrite Hi, Hpre. reflexivity.
  - apply (stop_bound _ _ _ (i :: pre) post j p r); auto.
    cbn [forallb]. rewrite Hi, Hpre. reflexivity.
  - apply (stop_missing _ _ _ (i :: pre) post j); auto.
    cbn [forallb]. rewrite Hi, Hpre. reflexivity.
Qed.

Lemma check_entries_stop (l : list ParameterEntry)
    (ref : list ReferenceBound) (range : list nat) (tr : list call) :
  exists o, check_entries l ref range tr = (o, tr) /\ loop_stop l ref range o.
Proof.
  induction range as [|i range IH].
  - exists (Next tt). split; [reflexivity|]. apply stop_end. reflexivity.
  - destruct (nth_error l i) as [p|] eqn:Hp.
    2:{ exists (Raise IndexError). split.
        - apply check_entries_missing. auto.
        - apply (stop_missing _ _ _ [] range i); auto. }
    destruct (nth_error ref i) as [r|] eqn:Hr.
    2:{ exists (Raise IndexError). split.
        - apply check_entries_missing. auto.
        - apply (stop_missing _ _ _ [] range i); auto. }
    rewrite (check_entries_cons _ _ _ _ _ _ _ Hp Hr).
    destruct (name_ok r p) eqn:Hn; cbn [negb].
    2:{ eexists. split; [reflexivity|].
        apply (stop_name _ _ _ [] range i p r); auto. }
    destruct (in_bounds r p) eqn:Hb; cbn [negb].
    2:{ eexists. split; [reflexivity|].
        apply (stop_bound _ _ _ [] range i p r); auto. }
    destruct IH as (o & Ho & Hstop). exists o. split; [exact Ho|].
    apply loop_stop_cons; [|exact Hstop].
    apply (passes_intro _ _ _ _ _ Hp Hr Hn Hb).
Qed.

(** ** The end of the method and the method as a whole *)

Lemma finish_cases (l : list ParameterEntry) (c fRange fVoltageRange : Z)
    (tr : list call) :
  finish l c fRange fVoltageRange tr =
  if fRange >=? fVoltageRange
  then (Return (EC_SETUP + EC_SE_SCAN_RANGE_ERROR), tr)
  else (Next c, tr ++ success_calls l).
Proof.
  unfold finish, bind, do_return, ret, emit, success_calls.
  destruct (fRange >=? fVoltageRange); [reflexivity|].
  rewrite <- !app_assoc. reflexivity.
Qed.

(** A list of the wrong length that is long enough for [derive] stops at
    the arity check. *)
Lemma setup_wrong_arity (l : list ParameterEntry) :
  (8 <= List.length l)%nat -> List.length l <> CV_NUM_PARAMETER ->
  setup l = (Returned (EC_SETUP + EC_SE_AMOUNT_PARAMETER), []).
Proof.
  intros H8 Hne.
  destruct (derive_long l [] H8) as (fRange & fV & lb & ub & Hd).
  unfold setup, call_method, setup_body, bind. rewrite Hd.
  apply Nat.eqb_neq in Hne. rewrite Hne. reflexivity.
Qed.

(** A list too short for [derive] never reaches the arity check. *)
Lemma setup_too_short (l : list ParameterEntry) :
  (List.length l < 8)%nat -> setup l = (Raised IndexError, []).
Proof.
  intros Hlen. unfold setup, call_method, setup_body, bind.
  rewrite derive_short by assumption. reflexivity.
Qed.

(** With eleven entries the method is the loop followed by [finish]. *)
Lemma setup_eleven (l : list ParameterEntry) (fRange fVoltageRange : Z)
    (ref : list ReferenceBound) (o : outcome unit) :
  List.length l = CV_NUM_PARAMETER ->
  derive l [] = (Next (fRange, fVoltageRange, ref), []) ->
  check_entries l ref (seq 0 CV_NUM_PARAMETER) [] = (o, []) ->
  setup l =
  match o with
  | Next _ =>
      if fRange >=? fVoltageRange
      then (Returned (EC_SETUP + EC_SE_SCAN_RANGE_ERROR), [])
      else (Returned EC_NO_ERROR, success_calls l)
  | Return c => (Returned c, [])
  | Raise e => (Raised e, [])
  end.
Proof.
  intros Hlen Hd Hloop.
  unfold setup, call_method, setup_body, bind. rewrite Hd, Hlen.
  cbn [Nat.eqb CV_NUM_PARAMETER negb]. unfold ret at 1. rewrite Hloop.
  destruct o as [[]|c|e]; try reflexivity.
  rewrite finish_cases. destruct (fRange >=? fVoltageRange); reflexivity.
Qed.

(** The first [i] positions pass: the method is decided by position [i]
    and what follows it. *)
Lemma seq_split_at (i n : nat) :
  (i < n)%nat -> seq 0 n = seq 0 i ++ i :: seq (S i) (n - S i).
Proof.
  intros Hi. replace n with (i + S (n - S i))%nat at 1 by lia.
  rewrite seq_app. reflexivity.
Qed.

Lemma loop_from (l : list ParameterEntry) (ref : list ReferenceBound)
    (i : nat) (tr : list call) :
  (i < CV_NUM_PARAMETER)%nat ->
  forallb (passes l ref) (seq 0 i) = true ->
  check_entries l ref (seq 0 CV_NUM_PARAMETER) tr =
  check_entries l ref (i :: seq (S i) (CV_NUM_PARAMETER - S i)) tr.
Proof.
  intros Hi Hpre. rewrite (seq_split_at i CV_NUM_PARAMETER Hi).
  apply check_entries_skip. exact Hpre.
Qed.

(** The three ways the method ends once the loop has been entered. *)
Lemma setup_name_error (l : list ParameterEntry)
    (fRange fVoltageRange : Z) (ref : list ReferenceBound) (i : nat)
    (p : ParameterEntry) (r : ReferenceBound) :
  List.length l = CV_NUM_PARAMETER ->
  derive l [] = (Next (fRange, fVoltageRange, ref), []) ->
  (i < CV_NUM_PARAMETER)%nat ->
  forallb (passes l ref) (seq 0 i) = true ->
  nth_error l i = Some p ->
  nth_error ref i = Some r ->
  name_ok r p = false ->
  setup l = (Returned (EC_SETUP + EC_SE_PARAM_NOT_FOUND + Z.of_nat i), []).
Proof.
  intros Hlen Hd Hi Hpre Hp Hr Hn.
  rewrite (setup_eleven l fRange fVoltageRange ref
             (Return (EC_SETUP + EC_SE_PARAM_NOT_FOUND + Z.of_nat i)) Hlen Hd);
    [reflexivity|].
  rewrite (loop_from l ref i [] Hi Hpre).
  rewrite (check_entries_cons _ _ _ _ _ _ _ Hp Hr), Hn. reflexivity.
Qed.

Lemma setup_bound_error (l : list ParameterEntry)
    (fRange fVoltageRange : Z) (ref : list ReferenceBound) (i : nat)
    (p : ParameterEntry) (r : ReferenceBound) :
  List.length l = CV_NUM_PARAMETER ->
  derive l [] = (Next (fRange, fVoltageRange, ref), []) ->
  (i < CV_NUM_PARAMETER)%nat ->
  forallb (passes l ref) (seq 0 i) = true ->
  nth_error l i = Some p ->
  nth_error ref i = Some r ->
  name_ok r p = true ->
  in_bounds r p = false ->
  setup l
  = (Returned (EC_SETUP + EC_SE_PARAM_OUT_OF_BOUND + Z.of_nat i), []).
Proof.
  intros Hlen Hd Hi Hpre Hp Hr Hn Hb.
  rewrite (setup_eleven l fRange fVoltageRange ref
             (Return (EC_SETUP + EC_SE_PARAM_OUT_OF_BOUND + Z.of_nat i))
             Hlen Hd); [reflexivity|].
  rewrite (loop_from l ref i [] Hi Hpre).
  rewrite (check_entries_cons _ _ _ _ _ _ _ Hp Hr), Hn, Hb. reflexivity.
Qed.

Lemma setup_all_pass (l : list ParameterEntry)
    (fRange fVoltageRange : Z) (ref : list ReferenceBound) :
  List.length l = CV_NUM_PARAMETER ->
  derive l [] = (Next (fRange, fVoltageRange, ref), []) ->
  forallb (passes l ref) (seq 0 CV_NUM_PARAMETER) = true ->
  setup l =
  if fRange >=? fVoltageRange
  then (Returned (EC_SETUP + EC_SE_SCAN_RANGE_ERROR), [])
  else (Returned EC_NO_ERROR, success_calls l).
Proof.
  intros Hlen Hd Hall.
  apply (setup_eleven l fRange fVoltageRange ref (Next tt) Hlen Hd).
  apply check_entries_pass. exact Hall.
Qed.

(** ** Arity *)

(** C1.  The claim: every list whose length differs from 11 gets the arity
    error and no collaborator call, also lists with fewer than 8 entries.
    The code: the arity check comes after the reads of positions 1, 2 and 7,
    so a list with at least 8 entries and a length other than 11 gets the
    arity error with no collaborator call, while a list with fewer than 8
    entries raises [IndexError] before the check is reached. *)
Theorem arity_error_needs_eight_entries (l : list ParameterEntry) :
  List.length l <> CV_NUM_PARAMETER ->
  ((8 <= List.length l)%nat ->
     setup l = (Returned (EC_SETUP + EC_SE_AMOUNT_PARAMETER), []))
  /\ ((List.length l < 8)%nat -> setup l = (Raised IndexError, [])).
Proof.
  intros Hne. split.
  - intros H8. apply setup_wrong_arity; assumption.
  - apply setup_too_short.
Qed.

(** ** First violation wins *)

(** C9.  Positions are checked in ascending order, the name before the
    range: when every position before [i] passes both checks and the name at
    position [i] differs from the name of row [i], the method returns the
    naming error [base + 100 + i] and calls no collaborator, whatever the
    value at position [i] and whatever the entries after it. *)
Theorem naming_error_first_wins (l : list ParameterEntry)
    (fRange fVoltageRange : Z) (ref : list ReferenceBound) (i : nat)
    (p : ParameterEntry) (r : ReferenceBound) :
  List.length l = CV_NUM_PARAMETER ->
  derive l [] = (Next (fRange, fVoltageRange, ref), []) ->
  (i < CV_NUM_PARAMETER)%nat ->
  forallb (passes l ref) (seq 0 i) = true ->
  nth_error l i = Some p ->
  nth_error ref i = Some r ->
  entry_name p <> ref_name r ->
  setup l = (Returned (EC_SETUP + EC_SE_PARAM_NOT_FOUND + Z.of_nat i), []).
Proof.
  intros Hlen Hd Hi Hpre Hp Hr Hname.
  apply (setup_name_error l fRange fVoltageRange ref i p r); auto.
  unfold name_ok. apply String.eqb_neq. exact Hname.
Qed.

(** ** The scan-range check *)

(** C4.  With eleven entries that all pass their name and range checks, the
    method returns the scan-range error [base + 2] when the span
    [|SecondVertex - FirstVertex|] is greater than or equal to the envelope,
    and succeeds with the three collaborator calls when the span is strictly
    smaller; a span equal to the envelope fails. *)
Theorem scan_range_exclusive (l : list ParameterEntry)
    (fRange fVoltageRange : Z) (ref : list ReferenceBound)
    (e1 e2 : ParameterEntry) :
  List.length l = CV_NUM_PARAMETER ->
  derive l [] = (Next (fRange, fVoltageRange, ref), []) ->
  nth_error l 1 = Some e1 ->
  nth_error l 2 = Some e2 ->
  forallb (passes l ref) (seq 0 CV_NUM_PARAMETER) = true ->
  fRange = Z.abs (entry_value e2 - entry_value e1)
  /\ (fVoltageRange <= fRange ->
        setup l = (Returned (EC_SETUP + EC_SE_SCAN_RANGE_ERROR), []))
  /\ (fRange < fVoltageRange ->
        setup l = (Returned 0, success_calls l)).
Proof.
  intros Hlen Hd H1 H2 Hall.
  pose proof (setup_all_pass l fRange fVoltageRange ref Hlen Hd Hall) as Hs.
  split; [|split].
  - rewrite derive_cases, H1, H2 in Hd.
    destruct (nth_error l 7); [|discriminate].
    cbv zeta in Hd. congruence.
  - intros Hge. rewrite Hs.
    destruct (Z.geb_spec fRange fVoltageRange); [reflexivity|lia].
  - intros Hlt. rewrite Hs.
    destruct (Z.geb_spec fRange fVoltageRange); [lia|reflexivity].
Qed.

(** ** All outcomes of the method on eleven entries *)

Lemma seq_split_inv (pre post : list nat) (j : nat) :
  forall a n : nat,
    seq a n = pre ++ j :: post ->
    (a <= j < a + n)%nat /\ pre = seq a (j - a).
Proof.
  induction pre as [|x pre IH]; intros a n H.
  - destruct n as [|n]; [discriminate|]. cbn in H.
    injection H as <- _. rewrite Nat.sub_diag. split; [lia|reflexivity].
  - destruct n as [|n]; [discriminate|]. cbn in H.
    injection H as <- H. destruct (IH _ _ H) as [Hj ->].
    split; [lia|].
    replace (j - a)%nat with (S (j - S a)) by lia. reflexivity.
Qed.

Lemma table_length (lb ub fVoltageRange : Z) :
  List.length (listReferenceList lb ub fVoltageRange) = CV_NUM_PARAMETER.
Proof. reflexivity. Qed.

(** On eleven entries the method returns; which code it returns is decided
    by the first position that fails and, when none does, by the scan
    range.  No exception is possible any more. *)
Lemma setup_eleven_cases (l : list ParameterEntry)
    (fRange fVoltageRange : Z) (ref : list ReferenceBound) :
  List.length l = CV_NUM_PARAMETER ->
  derive l [] = (Next (fRange, fVoltageRange, ref), []) ->
  (forallb (passes l ref) (seq 0 CV_NUM_PARAMETER) = true
   /\ fRange < fVoltageRange
   /\ setup l = (Returned EC_NO_ERROR, success_calls l))
  \/ (forallb (passes l ref) (seq 0 CV_NUM_PARAMETER) = true
      /\ fVoltageRange <= fRange
      /\ setup l = (Returned (EC_SETUP + EC_SE_SCAN_RANGE_ERROR), []))
  \/ (exists i p r,
        (i < CV_NUM_PARAMETER)%nat
        /\ forallb (passes l ref) (seq 0 i) = true
        /\ nth_error l i = Some p /\ nth_error ref i = Some r
        /\ name_ok r p = false
        /\ setup l
           = (Returned (EC_SETUP + EC_SE_PARAM_NOT_FOUND + Z.of_nat i), []))
  \/ (exists i p r,
        (i < CV_NUM_PARAMETER)%nat
        /\ forallb (passes l ref) (seq 0 i) = true
        /\ nth_error l i = Some p /\ nth_error ref i = Some r
        /\ name_ok r p = true /\ in_bounds r p = false
        /\ setup l
           = (Returned (EC_SETUP + EC_SE_PARAM_OUT_OF_BOUND + Z.of_nat i),
              [])).
Proof.
  intros Hlen Hd.
  destruct (check_entries_stop l ref (seq 0 CV_NUM_PARAMETER) [])
    as (o & Hloop & Hstop).
  pose proof (setup_eleven l fRange fVoltageRange ref o Hlen Hd Hloop) as Hs.
  destruct Hstop as [Hall|pre post i p r Hsplit Hpre Hp Hr Hn
                    |pre post i p r Hsplit Hpre Hp Hr Hn Hb
                    |pre post i Hsplit Hpre Hm].
  - destruct (Z.geb_spec fRange fVoltageRange).
    + right; left. repeat split; [assumption|lia|assumption].
    + left. repeat split; [assumption|lia|assumption].
  - destruct (seq_split_inv _ _ _ _ _ Hsplit) as [Hi Hpre'].
    rewrite Nat.sub_0_r in Hpre'. subst pre.
    right; right; left. exists i, p, r. repeat split; auto; lia.
  - destruct (seq_split_inv _ _ _ _ _ Hsplit) as [Hi Hpre'].
    rewrite Nat.sub_0_r in Hpre'. subst pre.
    right; right; right. exists i, p, r. repeat split; auto; lia.
  - destruct (seq_split_inv _ _ _ _ _ Hsplit) as [Hi _]. exfalso.
    destruct (derive_table _ _ _ _ _ _ Hd) as (lb & ub & ->).
    destruct Hm as [Hm|Hm]; apply nth_error_None in Hm.
    + lia.
    + rewrite table_length in Hm. lia.
Qed.

(** ** Success and side effects *)

(** C3.  The method returns 0 exactly when all checks pass, and then it has
    called [save_ExperimentType], [save_ExperimentParmeters] and
    [setup_ExportFiles] once each, in that order; whenever it returns a
    nonzero code, or raises, it has called no collaborator. *)
Theorem success_iff_all_checks (l : list ParameterEntry) :
  (exists fRange fVoltageRange ref,
      derive l [] = (Next (fRange, fVoltageRange, ref), [])
      /\ all_checks l ref fRange fVoltageRange = true
      /\ setup l
         = (Returned 0,
            [save_ExperimentType CV; save_ExperimentParmeters l;
             setup_ExportFiles]))
  \/ ((forall fRange fVoltageRange ref,
          derive l [] = (Next (fRange, fVoltageRange, ref), []) ->
          all_checks l ref fRange fVoltageRange = false)
      /\ ((exists c, c <> 0 /\ setup l = (Returned c, []))
          \/ setup l = (Raised IndexError, []))).
Proof.
  destruct (Nat.eq_dec (List.length l) CV_NUM_PARAMETER) as [Hlen|Hlen].
  - assert (H8 : (8 <= List.length l)%nat) by (rewrite Hlen; cbv; lia).
    destruct (derive_long l [] H8) as (fRange & fV & lb & ub & Hd).
    destruct (setup_eleven_cases l fRange fV _ Hlen Hd)
      as [(Hall & Hlt & Hs)|[(Hall & Hge & Hs)
         |[(i & p & r & Hi & Hpre & Hp & Hr & Hn & Hs)
          |(i & p & r & Hi & Hpre & Hp & Hr & Hn & Hb & Hs)]]].
    + left. exists fRange, fV, (listReferenceList lb ub fV).
      split; [exact Hd|]. split; [|exact Hs].
      unfold all_checks. rewrite Hlen, Hall.
      apply Z.ltb_lt in Hlt. rewrite Hlt. reflexivity.
    + right. split.
      * intros fRange' fV' ref' Hd'. rewrite Hd in Hd'.
        injection Hd' as <- <- <-. unfold all_checks.
        apply Z.ltb_ge in Hge. rewrite Hge. apply andb_false_r.
      * left. eexists. split; [|exact Hs]. cbv. discriminate.
    + right. split.
      * intros fRange' fV' ref' Hd'. rewrite Hd in Hd'.
        injection Hd' as <- <- <-. unfold all_checks.
        rewrite (seq_split_at i CV_NUM_PARAMETER Hi), forallb_app.
        cbn [forallb]. unfold passes at 2. rewrite Hp, Hr, Hn.
        cbn [andb]. rewrite !andb_false_r. reflexivity.
      * left. eexists. split; [|exact Hs].
        unfold EC_SETUP, EC_SE_PARAM_NOT_FOUND. lia.
    + right. split.
      * intros fRange' fV' ref' Hd'. rewrite Hd in Hd'.
        injection Hd' as <- <- <-. unfold all_checks.
        rewrite (seq_split_at i CV_NUM_PARAMETER Hi), forallb_app.
        cbn [forallb]. unfold passes at 2. rewrite Hp, Hr, Hn, Hb.
        cbn [andb]. rewrite !andb_false_r. reflexivity.
      * left. eexists. split; [|exact Hs].
        unfold EC_SETUP, EC_SE_PARAM_OUT_OF_BOUND. lia.
  - right. split.
    + intros fRange fV ref _. unfold all_checks.
      apply Nat.eqb_neq in Hlen. rewrite Hlen. reflexivity.
    + destruct (Nat.lt_ge_cases (List.length l) 8) as [Hlt|Hge].
      * right. apply setup_too_short. exact Hlt.
      * left. eexists. split; [|apply setup_wrong_arity; assumption].
        cbv. discriminate.
Qed.

(** ** The codes the method can return *)

Lemma returned_code_eq (a b : Z) (t t' : list call) :
  (Returned a, t) = (Returned b, t') -> b = a.
Proof. congruence. Qed.

(** C10.  A returned code is 0, [base + 1], [base + 2], [base + 100 + i] or
    [base + 200 + i] with [i] from 0 to 10; [base + 3] and [base + 4] are
    never returned, and a list with more than eleven entries gets
    [base + 1]. *)
Theorem returned_codes (l : list ParameterEntry) :
  (forall (c : Z) (tr : list call),
      setup l = (Returned c, tr) ->
      (c = 0
       \/ c = EC_SETUP + EC_SE_AMOUNT_PARAMETER
       \/ c = EC_SETUP + EC_SE_SCAN_RANGE_ERROR
       \/ exists i : nat,
            (i <= 10)%nat
            /\ (c = EC_SETUP + EC_SE_PARAM_NOT_FOUND + Z.of_nat i
                \/ c = EC_SETUP + EC_SE_PARAM_OUT_OF_BOUND + Z.of_nat i))
      /\ c <> EC_SETUP + 3 /\ c <> EC_SETUP + 4)
  /\ ((11 < List.length l)%nat ->
      setup l = (Returned (EC_SETUP + EC_SE_AMOUNT_PARAMETER), [])).
Proof.
  split.
  - intros c tr Hret.
    destruct (Nat.eq_dec (List.length l) CV_NUM_PARAMETER) as [Hlen|Hlen].
    + assert (H8 : (8 <= List.length l)%nat) by (rewrite Hlen; cbv; lia).
      destruct (derive_long l [] H8) as (fRange & fV & lb & ub & Hd).
      destruct (setup_eleven_cases l fRange fV _ Hlen Hd)
        as [(_ & _ & Hs)|[(_ & _ & Hs)
           |[(i & p & r & Hi & _ & _ & _ & _ & Hs)
            |(i & p & r & Hi & _ & _ & _ & _ & _ & Hs)]]];
        rewrite Hs in Hret; apply returned_code_eq in Hret; subst c;
        unfold CV_NUM_PARAMETER in *;
        unfold EC_NO_ERROR, EC_SETUP, EC_SE_AMOUNT_PARAMETER,
          EC_SE_SCAN_RANGE_ERROR, EC_SE_PARAM_NOT_FOUND,
          EC_SE_PARAM_OUT_OF_BOUND.
      * split; [left; reflexivity|lia].
      * split; [right; right; left; reflexivity|lia].
      * split; [|lia]. do 3 right. exists i. split; [lia|left; reflexivity].
      * split; [|lia]. do 3 right. exists i. split; [lia|right; reflexivity].
    + destruct (Nat.lt_ge_cases (List.length l) 8) as [Hlt|Hge].
      * rewrite (setup_too_short l Hlt) in Hret. discriminate.
      * rewrite (setup_wrong_arity l Hge Hlen) in Hret.
        apply returned_code_eq in Hret. subst c.
        unfold EC_SETUP, EC_SE_AMOUNT_PARAMETER.
        split; [right; left; reflexivity|lia].
  - intros Hlong. apply setup_wrong_arity; unfold CV_NUM_PARAMETER; lia.
Qed.

(** ** Inclusive range checks *)

Lemma limits_ordered_inv :
  limits_ordered = true ->
  0 < VOLTAGE_RANGE /\ 0 < VOLTAGE_RANGE_FWP
  /\ MIN_STEP_SIZE <= MAX_STEP_SIZE
  /\ MIN_SCAN_RATE <= MAX_SCAN_RATE
  /\ MIN_CYCLE <= MAX_CYCLE
  /\ LPTIARTIA_OPEN <= LPTIARTIA_512K
  /\ ADCSINC2OSR_DISABLED <= ADCSINC2OSR_1333
  /\ ADCSINC3OSR_DISABLED <= ADCSINC3OSR_2.
Proof.
  unfold limits_ordered.
  rewrite !andb_true_iff, !Z.ltb_lt, !Z.leb_le. tauto.
Qed.

(** Under an ordered configuration a value that sits on either end of its
    row lies in the row: no row that is reached with such a value is an empty
    interval, also the two rows derived from the vertices. *)
Lemma value_on_bound_in_bounds (l : list ParameterEntry)
    (fRange fVoltageRange : Z) (ref : list ReferenceBound) (i : nat)
    (p : ParameterEntry) (r : ReferenceBound) :
  limits_ordered = true ->
  derive l [] = (Next (fRange, fVoltageRange, ref), []) ->
  nth_error l i = Some p ->
  nth_error ref i = Some r ->
  entry_value p = ref_lower r \/ entry_value p = ref_upper r ->
  in_bounds r p = true.
Proof.
  intros Hord Hd Hp Hr Hv.
  apply limits_ordered_inv in Hord.
  rewrite derive_cases in Hd.
  destruct (nth_error l 1) as [e1|] eqn:H1; [|discriminate].
  destruct (nth_error l 2) as [e2|] eqn:H2; [|discriminate].
  destruct (nth_error l 7) as [e7|] eqn:H7; [|discriminate].
  cbv zeta in Hd. injection Hd as _ HfV Href.
  rewrite HfV in Href.
  assert (Hpos : 0 < fVoltageRange)
    by (rewrite <- HfV; destruct (entry_value e7 =? 1); lia).
  clear HfV. subst ref. apply in_bounds_iff.
  destruct i as [|[|[|[|[|[|[|[|[|[|[|i]]]]]]]]]]];
    cbn in Hr; [..|destruct i; discriminate];
    injection Hr as <-; cbn [ref_lower ref_upper] in *; try lia.
  - rewrite H1 in Hp. injection Hp as <-. lia.
  - rewrite H2 in Hp. injection Hp as <-. lia.
Qed.

Lemma nth_error_same {A : Type} (l : list A) (i : nat) (x y : A) :
  nth_error l i = Some x -> nth_error l i = Some y -> x = y.
Proof. congruence. Qed.

(** A position that passes is not the position of a returned bounds error. *)
Lemma passing_position_no_bounds_error (l : list ParameterEntry)
    (fRange fVoltageRange : Z) (ref : list ReferenceBound) (i : nat)
    (tr : list call) :
  List.length l = CV_NUM_PARAMETER ->
  derive l [] = (Next (fRange, fVoltageRange, ref), []) ->
  passes l ref i = true ->
  setup l
  <> (Returned (EC_SETUP + EC_SE_PARAM_OUT_OF_BOUND + Z.of_nat i), tr).
Proof.
  intros Hlen Hd Hi Hret.
  destruct (passes_inv _ _ _ Hi) as (p & r & Hp & Hr & Hn & Hb).
  destruct (setup_eleven_cases l fRange fVoltageRange ref Hlen Hd)
    as [(_ & _ & Hs)|[(_ & _ & Hs)
       |[(j & q & s & Hj & _ & _ & _ & _ & Hs)
        |(j & q & s & Hj & _ & Hq & Hs' & _ & Hqb & Hs)]]];
    rewrite Hs in Hret; apply returned_code_eq in Hret;
    unfold CV_NUM_PARAMETER in *;
    unfold EC_NO_ERROR, EC_SETUP, EC_SE_SCAN_RANGE_ERROR,
      EC_SE_PARAM_NOT_FOUND, EC_SE_PARAM_OUT_OF_BOUND in Hret;
    try lia.
  assert (j = i) by lia. subst j.
  rewrite (nth_error_same _ _ _ _ Hq Hp) in Hqb.
  rewrite (nth_error_same _ _ _ _ Hs' Hr) in Hqb. congruence.
Qed.

(** C5.  The range check is inclusive at both ends.  On eleven entries,
    with every position before [i] passing and the name at position [i]
    right: a value equal to the lower or to the upper bound of row [i]
    passes, so that the method does not return the bounds error of position
    [i]; a value strictly below the lower bound or strictly above the upper
    bound makes the method return [base + 200 + i] with no collaborator
    call.  The configuration is assumed ordered (positive envelopes, fixed
    rows with lower <= upper). *)
Theorem range_check_inclusive (l : list ParameterEntry)
    (fRange fVoltageRange : Z) (ref : list ReferenceBound) (i : nat)
    (p : ParameterEntry) (r : ReferenceBound) :
  limits_ordered = true ->
  List.length l = CV_NUM_PARAMETER ->
  derive l [] = (Next (fRange, fVoltageRange, ref), []) ->
  (i < CV_NUM_PARAMETER)%nat ->
  forallb (passes l ref) (seq 0 i) = true ->
  nth_error l i = Some p ->
  nth_error ref i = Some r ->
  entry_name p = ref_name r ->
  (entry_value p = ref_lower r \/ entry_value p = ref_upper r ->
     forallb (passes l ref) (seq 0 (S i)) = true
     /\ forall tr,
          setup l
          <> (Returned (EC_SETUP + EC_SE_PARAM_OUT_OF_BOUND + Z.of_nat i),
              tr))
  /\ (entry_value p < ref_lower r \/ ref_upper r < entry_value p ->
        setup l
        = (Returned (EC_SETUP + EC_SE_PARAM_OUT_OF_BOUND + Z.of_nat i), [])).
Proof.
  intros Hord Hlen Hd Hi Hpre Hp Hr Hname.
  assert (Hn : name_ok r p = true)
    by (unfold name_ok; apply String.eqb_eq; exact Hname).
  split.
  - intros Hv.
    pose proof (value_on_bound_in_bounds _ _ _ _ _ _ _ Hord Hd Hp Hr Hv)
      as Hb.
    pose proof (passes_intro _ _ _ _ _ Hp Hr Hn Hb) as Hpass.
    split.
    + rewrite seq_S, forallb_app. cbn [forallb Nat.add].
      rewrite Hpre, Hpass. reflexivity.
    + intros tr.
      apply (passing_position_no_bounds_error l fRange fVoltageRange ref);
        assumption.
  - intros Hout. apply in_bounds_false_iff in Hout.
    apply (setup_bound_error l fRange fVoltageRange ref i p r); assumption.
Qed.

(** ** Derived bounds *)

(** C6.  For every pair of vertex values and every value of the flag at
    position 7, the row of the start potential is [[lowerVertex,
    upperVertex]], the smaller and the larger of the two vertex values, and
    both vertex rows are [[upperVertex - envelope, lowerVertex + envelope]]. *)
Theorem derived_bounds (l : list ParameterEntry) (e1 e2 e7 : ParameterEntry)
    (tr : list call) :
  nth_error l 1 = Some e1 ->
  nth_error l 2 = Some e2 ->
  nth_error l 7 = Some e7 ->
  let lowerVertex := Z.min (entry_value e1) (entry_value e2) in
  let upperVertex := Z.max (entry_value e1) (entry_value e2) in
  let envelope :=
    if entry_value e7 =? 1 then VOLTAGE_RANGE_FWP else VOLTAGE_RANGE * 2 in
  exists fRange ref,
    derive l tr = (Next (fRange, envelope, ref), tr)
    /\ nth_error ref 0 = Some (mkRef START_POTENTIAL lowerVertex upperVertex)
    /\ nth_error ref 1
       = Some (mkRef LOWER_POTENTIAL
                 (upperVertex - envelope) (lowerVertex + envelope))
    /\ nth_error ref 2
       = Some (mkRef UPPER_POTENTIAL
                 (upperVertex - envelope) (lowerVertex + envelope)).
Proof.
  intros H1 H2 H7 lowerVertex upperVertex envelope.
  rewrite derive_cases, H1, H2, H7. cbv zeta.
  eexists. eexists. split; [reflexivity|].
  repeat split.
Qed.

(** ** Vertex symmetry *)

Lemma nth_error_tail {A : Type} (x y z : A) (l : list A) (n : nat) :
  nth_error (x :: y :: z :: l) (S (S (S n))) = nth_error l n.
Proof. reflexivity. Qed.





(** Both vertex values are checked against the same row, and they lie in it
    together or not at all: exchanging them changes no check. *)
Lemma vertex_rows_together (a b env : Z) :
  (Z.max a b - env <=? a) && (a <=? Z.min a b + env)
  = (Z.max a b - env <=? b) && (b <=? Z.min a b + env).
Proof.
  destruct (Z.leb_spec (Z.max a b - env) a),
           (Z.leb_spec a (Z.min a b + env)),
           (Z.leb_spec (Z.max a b - env) b),
           (Z.leb_spec b (Z.min a b + env));
    cbn [andb]; try reflexivity; lia.
Qed.



(** ** Positional names *)

Lemma derive_names (l : list ParameterEntry) (fRange fVoltageRange : Z)
    (ref : list ReferenceBound) :
  derive l [] = (Next (fRange, fVoltageRange, ref), []) ->
  map ref_name ref = code_positional_names.
Proof.
  intros Hd. destruct (derive_table _ _ _ _ _ _ Hd) as (lb & ub & ->).
  reflexivity.
Qed.

(** C2, as the code has it.  The table names the positions StartVoltage,
    FirstVertex, SecondVertex, Stepsize, Scanrate, Cycle, LPTIA_Resistor,
    FixedWEPotential, MainsFilter, Sinc2_Oversampling, Sinc3_Oversampling:
    position 6 is compared with the LPTIA_Resistor identifier and position 7
    with the FixedWEPotential identifier.  On eleven entries whose positions
    before [i] all pass, the method returns the naming error of position [i]
    exactly when the name at [i] differs from the [i]-th of these names. *)
Theorem names_checked_in_table_order (l : list ParameterEntry)
    (fRange fVoltageRange : Z) (ref : list ReferenceBound) :
  derive l [] = (Next (fRange, fVoltageRange, ref), []) ->
  map ref_name ref
  = [ START_POTENTIAL; LOWER_POTENTIAL; UPPER_POTENTIAL; STEP_SIZE;
      SCAN_RATE; CYCLE; LPTIA_RTIA_SIZE; FIXED_WE_POTENTIAL; MAINS_FILTER;
      SINC2_OVERSAMPLING; SINC3_OVERSAMPLING ]
  /\ forall (i : nat) (p : ParameterEntry) (expected : string),
       List.length l = CV_NUM_PARAMETER ->
       forallb (passes l ref) (seq 0 i) = true ->
       nth_error l i = Some p ->
       nth_error code_positional_names i = Some expected ->
       (setup l
        = (Returned (EC_SETUP + EC_SE_PARAM_NOT_FOUND + Z.of_nat i), [])
        <-> entry_name p <> expected).
Proof.
  intros Hd. pose proof (derive_names _ _ _ _ Hd) as Hnames.
  split; [exact Hnames|].
  intros i p expected Hlen Hpre Hp Hexp.
  assert (Hi : (i < CV_NUM_PARAMETER)%nat).
  { change CV_NUM_PARAMETER with (List.length code_positional_names).
    apply nth_error_Some. congruence. }
  rewrite <- Hnames, nth_error_map in Hexp.
  destruct (nth_error ref i) as [r|] eqn:Hr; [|discriminate].
  cbn [option_map] in Hexp. injection Hexp as <-.
  split.
  - intros Hret Heq.
    assert (Hn : name_ok r p = true)
      by (unfold name_ok; apply String.eqb_eq; exact Heq).
    destruct (setup_eleven_cases l fRange fVoltageRange ref Hlen Hd)
      as [(_ & _ & Hs)|[(_ & _ & Hs)
         |[(j & q & s & Hj & _ & Hq & Hs' & Hqn & Hs)
          |(j & q & s & Hj & _ & _ & _ & _ & _ & Hs)]]];
      rewrite Hs in Hret; apply returned_code_eq in Hret;
      unfold CV_NUM_PARAMETER in *;
      unfold EC_NO_ERROR, EC_SETUP, EC_SE_SCAN_RANGE_ERROR,
        EC_SE_PARAM_NOT_FOUND, EC_SE_PARAM_OUT_OF_BOUND in Hret;
      try lia.
    assert (j = i) by lia. subst j.
    rewrite (nth_error_same _ _ _ _ Hq Hp) in Hqn.
    rewrite (nth_error_same _ _ _ _ Hs' Hr) in Hqn. congruence.
  - intros Hneq.
    apply (setup_name_error l fRange fVoltageRange ref i p r); auto.
    unfold name_ok. apply String.eqb_neq. exact Hneq.
Qed.

(** ** Envelope selection *)

(** A list built by [cv_parameters] passes every per-field check as soon as
    its start potential and its vertices lie in their rows. *)
Lemma cv_parameters_pass (fStart fFirst fSecond iFixed lb ub env : Z) :
  limits_ordered = true ->
  lb <= fStart <= ub ->
  ub - env <= fFirst <= lb + env ->
  ub - env <= fSecond <= lb + env ->
  0 <= iFixed <= 1 ->
  forallb
    (passes (cv_parameters fStart fFirst fSecond iFixed)
       (listReferenceList lb ub env))
    (seq 0 CV_NUM_PARAMETER) = true.
Proof.
  intros Hord Hs H1 H2 Hf. apply limits_ordered_inv in Hord.
  apply forallb_forall. intros i Hin. apply in_seq in Hin.
  unfold CV_NUM_PARAMETER in Hin.
  destruct i as [|[|[|[|[|[|[|[|[|[|[|i]]]]]]]]]]]; [..|lia];
    (eapply passes_intro;
     [reflexivity|reflexivity|reflexivity
     |apply in_bounds_iff; cbn [ref_lower ref_upper entry_value]; lia]).
Qed.

Lemma cv_parameters_length (fStart fFirst fSecond iFixed : Z) :
  List.length (cv_parameters fStart fFirst fSecond iFixed) = CV_NUM_PARAMETER.
Proof. reflexivity. Qed.

Lemma derive_cv_parameters (fStart fFirst fSecond iFixed : Z) :
  derive (cv_parameters fStart fFirst fSecond iFixed) [] =
  (Next (Z.abs (fSecond - fFirst),
         (if iFixed =? 1 then VOLTAGE_RANGE_FWP else VOLTAGE_RANGE * 2),
         listReferenceList (Z.min fFirst fSecond) (Z.max fFirst fSecond)
           (if iFixed =? 1 then VOLTAGE_RANGE_FWP else VOLTAGE_RANGE * 2)),
   []).
Proof. rewrite derive_cases. reflexivity. Qed.

(** C7.  The envelope is [VOLTAGE_RANGE_FWP] when the value of the entry at
    position 7 (the FixedWEPotential row) equals 1 and [VOLTAGE_RANGE * 2]
    otherwise.  When the fixed-mode constant is the smaller one, the vertex
    pair [0], [VOLTAGE_RANGE_FWP] passes with the flag at 0 and fails, with
    the scan-range error, with the flag at 1, all other entries being the
    same and valid. *)
Theorem envelope_selection :
  limits_ordered = true ->
  VOLTAGE_RANGE_FWP < VOLTAGE_RANGE * 2 ->
  (forall (l : list ParameterEntry) (e7 : ParameterEntry)
          (fRange fVoltageRange : Z) (ref : list ReferenceBound)
          (tr : list call),
      nth_error l 7 = Some e7 ->
      derive l tr = (Next (fRange, fVoltageRange, ref), tr) ->
      fVoltageRange
      = if entry_value e7 =? 1 then VOLTAGE_RANGE_FWP
        else VOLTAGE_RANGE * 2)
  /\ exists l : list ParameterEntry,
       l = cv_parameters 0 0 VOLTAGE_RANGE_FWP 0
       /\ set_value 7 1 l = cv_parameters 0 0 VOLTAGE_RANGE_FWP 1
       /\ setup l = (Returned 0, success_calls l)
       /\ setup (set_value 7 1 l)
          = (Returned (EC_SETUP + EC_SE_SCAN_RANGE_ERROR), []).
Proof.
  intros Hord Hlt. pose proof (limits_ordered_inv Hord) as Hinv.
  split.
  - intros l e7 fRange fV ref tr H7 Hd.
    rewrite derive_cases, H7 in Hd.
    destruct (nth_error l 1); [|discriminate].
    destruct (nth_error l 2); [|discriminate].
    cbv zeta in Hd. congruence.
  - eexists. split; [reflexivity|]. split; [reflexivity|].
    change (set_value 7 1 (cv_parameters 0 0 VOLTAGE_RANGE_FWP 0))
      with (cv_parameters 0 0 VOLTAGE_RANGE_FWP 1).
    split.
    + rewrite (setup_all_pass _ _ _ _ (cv_parameters_length _ _ _ _)
                 (derive_cv_parameters _ _ _ _)).
      * cbn [Z.eqb]. destruct (Z.geb_spec (Z.abs (VOLTAGE_RANGE_FWP - 0))
                                 (VOLTAGE_RANGE * 2)); [lia|reflexivity].
      * apply cv_parameters_pass; cbn [Z.eqb]; try assumption; lia.
    + rewrite (setup_all_pass _ _ _ _ (cv_parameters_length _ _ _ _)
                 (derive_cv_parameters _ _ _ _)).
      * cbn [Z.eqb Pos.eqb]. destruct (Z.geb_spec (Z.abs (VOLTAGE_RANGE_FWP - 0))
                                 VOLTAGE_RANGE_FWP); [reflexivity|lia].
      * apply cv_parameters_pass; cbn [Z.eqb Pos.eqb]; try assumption; lia.
Qed.

End SetupFacts.

(** * The method on concrete lists *)

Section Concrete.

Local Existing Instance sample_limits.

Example run_code_scenario :
  setup code_scenario = (Returned 0, success_calls code_scenario).
Proof. vm_compute. reflexivity. Qed.

Example run_spec_scenario : setup spec_scenario = (Returned 11106, []).
Proof. vm_compute. reflexivity. Qed.

Example run_empty : setup [] = (Raised IndexError, []).
Proof. vm_compute. reflexivity. Qed.

Example run_seven : setup (firstn 7 code_scenario) = (Raised IndexError, []).
Proof. vm_compute. reflexivity. Qed.

Example run_eight : setup (firstn 8 code_scenario) = (Returned 11001, []).
Proof. vm_compute. reflexivity. Qed.

Example run_boundary : setup boundary_scenario = (Returned 11002, []).
Proof. vm_compute. reflexivity. Qed.

Example run_long : setup long_scenario = (Returned 11001, []).
Proof. vm_compute. reflexivity. Qed.

(** *** Instances of the theorems *)

(** C1 at the empty list: the length differs from 11 and the method raises. *)
Lemma arity_error_needs_eight_entries_witness :
  List.length (@nil ParameterEntry) <> CV_NUM_PARAMETER
  /\ setup [] = (Raised IndexError, []).
Proof.
  assert (H : List.length (@nil ParameterEntry) <> CV_NUM_PARAMETER)
    by discriminate.
  split; [exact H|].
  apply (proj2 (arity_error_needs_eight_entries [] H)).
  cbn [List.length]. lia.
Defined.

(** C2 at the scenario of the specification: position 6 is compared with
    "LPTIA_Resistor". *)
Lemma names_checked_in_table_order_witness :
  setup spec_scenario
  = (Returned (EC_SETUP + EC_SE_PARAM_NOT_FOUND + Z.of_nat 6), [])
  <-> "FixedWEPotential"%string <> LPTIA_RTIA_SIZE.
Proof.
  refine (proj2 (names_checked_in_table_order spec_scenario
                   1000 4000 (listReferenceList (-500) 500 4000) _)
            6%nat (mkEntry "FixedWEPotential" 0) LPTIA_RTIA_SIZE _ _ _ _);
    reflexivity.
Defined.

(** C2, the claim refuted: the table built for the scenario of the
    specification does not carry the names in the order the specification
    gives, and the list that does carry them in that order is rejected with
    the naming error of position 6. *)
Lemma spec_order_rejected :
  map entry_name spec_scenario = spec_positional_names
  /\ (exists fRange fVoltageRange ref,
         derive spec_scenario [] = (Next (fRange, fVoltageRange, ref), [])
         /\ map ref_name ref <> spec_positional_names
         /\ nth_error (map ref_name ref) 6 = Some LPTIA_RTIA_SIZE
         /\ nth_error (map ref_name ref) 6 <> Some FIXED_WE_POTENTIAL
         /\ nth_error (map ref_name ref) 7 = Some FIXED_WE_POTENTIAL
         /\ nth_error (map ref_name ref) 7 <> Some LPTIA_RTIA_SIZE)
  /\ setup spec_scenario
     = (Returned (EC_SETUP + EC_SE_PARAM_NOT_FOUND + 6), []).
Proof.
  split; [reflexivity|]. split; [|reflexivity].
  exists 1000, 4000, (listReferenceList (-500) 500 4000).
  split; [reflexivity|].
  repeat split; try reflexivity; discriminate.
Qed.

(** C3 at the scenario in table order. *)
Lemma success_iff_all_checks_witness :
  setup code_scenario
  = (Returned 0,
     [save_ExperimentType CV; save_ExperimentParmeters code_scenario;
      setup_ExportFiles]).
Proof.
  destruct (success_iff_all_checks code_scenario)
    as [(fRange & fV & ref & _ & _ & Hs)|[Hno _]].
  - exact Hs.
  - specialize (Hno 1000 4000 (listReferenceList (-500) 500 4000) eq_refl).
    discriminate Hno.
Defined.

(** C4 at a span equal to the envelope. *)
Lemma scan_range_exclusive_witness :
  setup boundary_scenario
  = (Returned (EC_SETUP + EC_SE_SCAN_RANGE_ERROR), []).
Proof.
  refine (proj1 (proj2 (scan_range_exclusive boundary_scenario
                          2100 2100 (listReferenceList 0 2100 2100)
                          (mkEntry "FirstVertex" 0)
                          (mkEntry "SecondVertex" 2100) _ _ _ _ _)) _);
    [reflexivity..|lia].
Defined.

(** C5 at position 3, whose value 1 is the lower bound of its row. *)
Lemma range_check_inclusive_witness :
  forallb (passes boundary_scenario (listReferenceList 0 2100 2100))
    (seq 0 4) = true
  /\ forall tr,
       setup boundary_scenario
       <> (Returned (EC_SETUP + EC_SE_PARAM_OUT_OF_BOUND + Z.of_nat 3), tr).
Proof.
  refine (proj1 (range_check_inclusive boundary_scenario
                   2100 2100 (listReferenceList 0 2100 2100) 3
                   (mkEntry "Stepsize" 1)
                   (mkRef STEP_SIZE MIN_STEP_SIZE MAX_STEP_SIZE)
                   _ _ _ _ _ _ _ _) _);
    try reflexivity.
  - unfold CV_NUM_PARAMETER. lia.
  - left. reflexivity.
Defined.

(** C6 at the scenario in table order. *)
Lemma derived_bounds_witness :
  exists fRange ref,
    derive code_scenario [] = (Next (fRange, 4000, ref), [])
    /\ nth_error ref 0 = Some (mkRef START_POTENTIAL (-500) 500)
    /\ nth_error ref 1 = Some (mkRef LOWER_POTENTIAL (-3500) 3500)
    /\ nth_error ref 2 = Some (mkRef UPPER_POTENTIAL (-3500) 3500).
Proof.
  exact (derived_bounds code_scenario
           (mkEntry "FirstVertex" 500) (mkEntry "SecondVertex" (-500))
           (mkEntry "FixedWEPotential" 0) [] eq_refl eq_refl eq_refl).
Defined.

(** C7 under [sample_limits]: 2100 < 4000. *)
Lemma envelope_selection_witness :
  exists l : list ParameterEntry,
    l = cv_parameters 0 0 2100 0
    /\ set_value 7 1 l = cv_parameters 0 0 2100 1
    /\ setup l = (Returned 0, success_calls l)
    /\ setup (set_value 7 1 l)
       = (Returned (EC_SETUP + EC_SE_SCAN_RANGE_ERROR), []).
Proof.
  refine (proj2 (envelope_selection _ _)).
  - reflexivity.
  - reflexivity.
Defined.

(** C9 at the scenario of the specification: positions 0 to 5 pass and the
    name at position 6 is not the one of row 6. *)
Lemma naming_error_first_wins_witness :
  setup spec_scenario
  = (Returned (EC_SETUP + EC_SE_PARAM_NOT_FOUND + Z.of_nat 6), []).
Proof.
  refine (naming_error_first_wins spec_scenario
            1000 4000 (listReferenceList (-500) 500 4000) 6
            (mkEntry "FixedWEPotential" 0)
            (mkRef LPTIA_RTIA_SIZE LPTIARTIA_OPEN LPTIARTIA_512K)
            _ _ _ _ _ _ _);
    try reflexivity.
  - unfold CV_NUM_PARAMETER. lia.
  - discriminate.
Defined.

(** C10 at a list of twelve entries. *)
Lemma returned_codes_witness :
  setup long_scenario = (Returned (EC_SETUP + EC_SE_AMOUNT_PARAMETER), []).
Proof.
  apply (proj2 (returned_codes long_scenario)).
  cbn [long_scenario code_scenario app List.length]. lia.
Defined.

End Concrete.

(** * Further properties of the method *)

Section MoreFacts.

Context {L : Limits}.

(** ** Exceptions *)


(** ** What the vertex rows can and cannot report *)

(** The table read off a list with at least three entries. *)
Lemma derive_three (e0 e1 e2 : ParameterEntry) (rest : list ParameterEntry)
    (tr : list call) :
  derive (e0 :: e1 :: e2 :: rest) tr =
  match nth_error rest 4 with
  | Some e7 =>
      let fVoltageRange :=
        if entry_value e7 =? 1 then VOLTAGE_RANGE_FWP else VOLTAGE_RANGE * 2 in
      (Next (Z.abs (entry_value e2 - entry_value e1), fVoltageRange,
             listReferenceList
               (Z.min (entry_value e1) (entry_value e2))
               (Z.max (entry_value e1) (entry_value e2)) fVoltageRange), tr)
  | None => (Raise IndexError, tr)
  end.
Proof. rewrite derive_cases, nth_error_tail. reflexivity. Qed.

(** The code of a list that is neither too short nor of the right length. *)
Lemma returned_length (l : list ParameterEntry) (c : Z) (tr : list call) :
  setup l = (Returned c, tr) ->
  c <> EC_SETUP + EC_SE_AMOUNT_PARAMETER ->
  List.length l = CV_NUM_PARAMETER.
Proof.
  intros Hret Hc.
  destruct (Nat.eq_dec (List.length l) CV_NUM_PARAMETER) as [Hlen|Hlen];
    [exact Hlen|exfalso].
  destruct (Nat.lt_ge_cases (List.length l) 8) as [Hlt|Hge].
  - rewrite (setup_too_short l Hlt) in Hret. discriminate.
  - rewrite (setup_wrong_arity l Hge Hlen) in Hret.
    apply returned_code_eq in Hret. congruence.
Qed.

(** What the rows of the two vertices are, for a list the table was derived
    from. *)
Lemma vertex_rows (l : list ParameterEntry) (fRange fVoltageRange : Z)
    (ref : list ReferenceBound) (e1 e2 : ParameterEntry) :
  derive l [] = (Next (fRange, fVoltageRange, ref), []) ->
  nth_error l 1 = Some e1 ->
  nth_error l 2 = Some e2 ->
  fRange = Z.abs (entry_value e2 - entry_value e1)
  /\ ref = listReferenceList
             (Z.min (entry_value e1) (entry_value e2))
             (Z.max (entry_value e1) (entry_value e2)) fVoltageRange.
Proof.
  intros Hd H1 H2. rewrite derive_cases, H1, H2 in Hd.
  destruct (nth_error l 7); [|discriminate].
  cbv zeta in Hd. injection Hd as <- HfV <-. rewrite HfV.
  split; reflexivity.
Qed.

(** X2.  With integer values and limits (exact arithmetic) the bounds error
    of position 2 (SecondVertex, [base + 200 + 2]) is never returned: both
    vertices are checked against the same row and lie in it together or not
    at all, so a second vertex outside its row is always reported at
    position 1.  On floats rounding of the row ends can separate the two
    tests, and the code is returned. *)
Theorem second_vertex_bounds_error_unreachable (l : list ParameterEntry)
    (tr : list call) :
  setup l <> (Returned (EC_SETUP + EC_SE_PARAM_OUT_OF_BOUND + Z.of_nat 2), tr).
Proof.
  intros Hret.
  assert (Hlen : List.length l = CV_NUM_PARAMETER).
  { apply (returned_length l _ tr Hret).
    unfold EC_SETUP, EC_SE_PARAM_OUT_OF_BOUND, EC_SE_AMOUNT_PARAMETER. lia. }
  assert (H8 : (8 <= List.length l)%nat) by (rewrite Hlen; cbv; lia).
  destruct (derive_long l [] H8) as (fRange & fV & lb & ub & Hd).
  destruct (setup_eleven_cases l fRange fV _ Hlen Hd)
    as [(_ & _ & Hs)|[(_ & _ & Hs)
       |[(i & p & r & Hi & _ & _ & _ & _ & Hs)
        |(i & p & r & Hi & Hpre & Hp & Hr & Hn & Hb & Hs)]]];
    rewrite Hs in Hret; apply returned_code_eq in Hret;
    unfold CV_NUM_PARAMETER in *;
    unfold EC_NO_ERROR, EC_SETUP, EC_SE_SCAN_RANGE_ERROR,
      EC_SE_PARAM_NOT_FOUND, EC_SE_PARAM_OUT_OF_BOUND in Hret;
    try lia.
  assert (i = 2)%nat by lia. subst i.
  cbn [seq forallb] in Hpre. rewrite andb_true_r in Hpre.
  apply andb_true_iff in Hpre as [_ H1].
  destruct (passes_inv _ _ _ H1) as (p1 & r1 & Hp1 & Hr1 & _ & Hb1).
  destruct (vertex_rows _ _ _ _ _ _ Hd Hp1 Hp) as [_ Href].
  rewrite Href in Hr, Hr1. cbn in Hr, Hr1.
  injection Hr as <-. injection Hr1 as <-.
  unfold in_bounds in Hb, Hb1. cbn [ref_lower ref_upper] in Hb, Hb1.
  rewrite vertex_rows_together in Hb1. congruence.
Qed.

(** X3.  With integer values and limits (exact arithmetic) the scan-range
    error is returned only when the span equals the envelope exactly: a
    larger span never reaches the check of line 197. *)
Theorem scan_range_error_only_at_equality (l : list ParameterEntry)
    (tr : list call) :
  setup l = (Returned (EC_SETUP + EC_SE_SCAN_RANGE_ERROR), tr) ->
  exists e1 e2 e7,
    nth_error l 1 = Some e1 /\ nth_error l 2 = Some e2
    /\ nth_error l 7 = Some e7
    /\ Z.abs (entry_value e2 - entry_value e1)
       = if entry_value e7 =? 1 then VOLTAGE_RANGE_FWP
         else VOLTAGE_RANGE * 2.
Proof.
  intros Hret.
  assert (Hlen : List.length l = CV_NUM_PARAMETER).
  { apply (returned_length l _ tr Hret).
    unfold EC_SE_SCAN_RANGE_ERROR, EC_SE_AMOUNT_PARAMETER. lia. }
  assert (H8 : (8 <= List.length l)%nat) by (rewrite Hlen; cbv; lia).
  destruct (derive_long l [] H8) as (fRange & fV & lb & ub & Hd).
  destruct (setup_eleven_cases l fRange fV _ Hlen Hd)
    as [(_ & _ & Hs)|[(Hall & Hge & _)
       |[(i & p & r & Hi & _ & _ & _ & _ & Hs)
        |(i & p & r & Hi & _ & _ & _ & _ & _ & Hs)]]];
    try (rewrite Hs in Hret; apply returned_code_eq in Hret;
         unfold EC_NO_ERROR, EC_SETUP, EC_SE_SCAN_RANGE_ERROR,
           EC_SE_PARAM_NOT_FOUND, EC_SE_PARAM_OUT_OF_BOUND in Hret; lia).
  unfold CV_NUM_PARAMETER in Hall. cbn [seq forallb] in Hall.
  apply andb_true_iff in Hall as [_ Hall].
  apply andb_true_iff in Hall as [H1 Hall].
  apply andb_true_iff in Hall as [H2 _].
  destruct (passes_inv _ _ _ H1) as (e1 & r1 & Hp1 & Hr1 & _ & Hb1).
  destruct (passes_inv _ _ _ H2) as (e2 & r2 & Hp2 & _).
  destruct (vertex_rows _ _ _ _ _ _ Hd Hp1 Hp2) as [HfR Href].
  pose proof Hd as Hd'. rewrite derive_cases, Hp1, Hp2 in Hd'.
  destruct (nth_error l 7) as [e7|] eqn:H7; [|discriminate].
  cbv zeta in Hd'. injection Hd' as _ HfV _.
  exists e1, e2, e7. repeat split; try assumption.
  rewrite HfV, <- HfR.
  rewrite Href in Hr1. cbn in Hr1. injection Hr1 as <-.
  apply in_bounds_iff in Hb1. cbn [ref_lower ref_upper] in Hb1. lia.
Qed.

(** X4.  With integer values and limits (exact arithmetic) a span strictly
    larger than the envelope is reported as the bounds error of position 1
    (FirstVertex), not as a scan-range error: on eleven entries whose start
    potential passes and whose first vertex is named right, the method
    returns [base + 200 + 1]. *)
Theorem wide_span_is_first_vertex_error (l : list ParameterEntry)
    (fRange fVoltageRange : Z) (ref : list ReferenceBound)
    (e1 : ParameterEntry) :
  List.length l = CV_NUM_PARAMETER ->
  derive l [] = (Next (fRange, fVoltageRange, ref), []) ->
  passes l ref 0 = true ->
  nth_error l 1 = Some e1 ->
  entry_name e1 = LOWER_POTENTIAL ->
  fVoltageRange < fRange ->
  setup l = (Returned (EC_SETUP + EC_SE_PARAM_OUT_OF_BOUND + Z.of_nat 1), []).
Proof.
  intros Hlen Hd H0 H1 Hname Hwide.
  destruct (nth_error l 2) as [e2|] eqn:H2;
    [|apply nth_error_None in H2; rewrite Hlen in H2; cbv in H2; lia].
  destruct (vertex_rows _ _ _ _ _ _ Hd H1 H2) as [HfR Href].
  apply (setup_bound_error l fRange fVoltageRange ref 1 e1
           (mkRef LOWER_POTENTIAL
              (Z.max (entry_value e1) (entry_value e2) - fVoltageRange)
              (Z.min (entry_value e1) (entry_value e2) + fVoltageRange)));
    try assumption.
  - unfold CV_NUM_PARAMETER. lia.
  - cbn [seq forallb]. rewrite H0. reflexivity.
  - rewrite Href. reflexivity.
  - unfold name_ok. apply String.eqb_eq. exact Hname.
  - apply in_bounds_false_iff. cbn [ref_lower ref_upper]. lia.
Qed.

(** ** What acceptance guarantees *)

Lemma forallb_seq_shift (f : nat -> bool) (n : nat) :
  forall a : nat,
    forallb f (seq (S a) n) = forallb (fun i => f (S i)) (seq a n).
Proof.
  induction n as [|n IH]; intros a; [reflexivity|].
  cbn [seq forallb]. rewrite IH. reflexivity.
Qed.

(** Passing at every index is the pointwise relation between the list and
    the table. *)
Lemma all_pass_Forall2 (l : list ParameterEntry) :
  forall ref : list ReferenceBound,
    List.length l = List.length ref ->
    forallb (passes l ref) (seq 0 (List.length l)) = true ->
    Forall2 (fun p r => name_ok r p = true /\ in_bounds r p = true) l ref.
Proof.
  induction l as [|p l IH]; intros [|r ref] Hlen Hall;
    try discriminate Hlen; [constructor|].
  cbn [List.length seq forallb] in Hall.
  apply andb_true_iff in Hall as [H0 Hall].
  unfold passes in H0. cbn [nth_error] in H0.
  apply andb_true_iff in H0. constructor; [exact H0|].
  apply IH; [cbn in Hlen; congruence|].
  rewrite forallb_seq_shift in Hall. exact Hall.
Qed.

Lemma accepted_inv (l : list ParameterEntry) (tr : list call) :
  setup l = (Returned 0, tr) ->
  List.length l = CV_NUM_PARAMETER
  /\ tr = success_calls l
  /\ exists fRange fVoltageRange ref,
       derive l [] = (Next (fRange, fVoltageRange, ref), [])
       /\ forallb (passes l ref) (seq 0 CV_NUM_PARAMETER) = true
       /\ fRange < fVoltageRange.
Proof.
  intros Hret.
  assert (Hlen : List.length l = CV_NUM_PARAMETER).
  { apply (returned_length l _ tr Hret).
    unfold EC_SETUP, EC_SE_AMOUNT_PARAMETER. lia. }
  assert (H8 : (8 <= List.length l)%nat) by (rewrite Hlen; cbv; lia).
  destruct (derive_long l [] H8) as (fRange & fV & lb & ub & Hd).
  destruct (setup_eleven_cases l fRange fV _ Hlen Hd)
    as [(Hall & Hlt & Hs)|[(_ & _ & Hs)
       |[(i & p & r & Hi & _ & _ & _ & _ & Hs)
        |(i & p & r & Hi & _ & _ & _ & _ & _ & Hs)]]];
    rewrite Hs in Hret;
    try (apply returned_code_eq in Hret;
         unfold EC_SETUP, EC_SE_SCAN_RANGE_ERROR,
           EC_SE_PARAM_NOT_FOUND, EC_SE_PARAM_OUT_OF_BOUND in Hret; lia).
  split; [exact Hlen|]. split; [congruence|]. eauto 6.
Qed.

(** X5.  What a return value of 0 guarantees about a list of integer values
    (no NaN among them): it carries the eleven names of the table in table
    order, every value lies in the row of its position (bounds included),
    the span is smaller than the envelope, and the three collaborator calls
    have been made. *)
Theorem accepted_list_shape (l : list ParameterEntry) (tr : list call) :
  setup l = (Returned 0, tr) ->
  tr = success_calls l
  /\ map entry_name l = code_positional_names
  /\ exists fRange fVoltageRange ref,
       derive l [] = (Next (fRange, fVoltageRange, ref), [])
       /\ 0 <= fRange < fVoltageRange
       /\ Forall2 (fun p r => ref_lower r <= entry_value p <= ref_upper r)
            l ref.
Proof.
  intros Hret.
  destruct (accepted_inv l tr Hret)
    as (Hlen & Htr & fRange & fV & ref & Hd & Hall & Hlt).
  destruct (derive_table _ _ _ _ _ _ Hd) as (lb & ub & Href).
  assert (HF : Forall2 (fun p r => name_ok r p = true /\ in_bounds r p = true)
                 l ref).
  { apply all_pass_Forall2.
    - rewrite Href, table_length. exact Hlen.
    - rewrite Hlen. exact Hall. }
  split; [exact Htr|]. split.
  - rewrite <- (derive_names _ _ _ _ Hd).
    clear - HF. induction HF as [|p r l ref [Hn _] _ IH]; [reflexivity|].
    cbn [map]. unfold name_ok in Hn. apply String.eqb_eq in Hn.
    rewrite Hn, IH. reflexivity.
  - exists fRange, fV, ref. split; [exact Hd|]. split.
    + split; [|exact Hlt].
      rewrite derive_cases in Hd.
      destruct (nth_error l 1); [|discriminate].
      destruct (nth_error l 2); [|discriminate].
      destruct (nth_error l 7); [|discriminate].
      cbv zeta in Hd. injection Hd as <- _ _. lia.
    + clear - HF. induction HF as [|p r l ref [_ Hb] _ IH]; constructor.
      * apply in_bounds_iff. exact Hb.
      * exact IH.
Qed.

(** X6.  With integer values and limits (exact arithmetic) the checks of
    the three potentials collapse to two conditions.  On eleven entries
    whose first three names are right and whose positions 3 to 10 pass, the
    method succeeds exactly when the start potential lies between the two
    vertices (ends included) and the span is strictly smaller than the
    envelope; the two vertex rows add nothing. *)
Theorem acceptance_closed_form (l : list ParameterEntry)
    (fRange fVoltageRange : Z) (ref : list ReferenceBound)
    (e0 e1 e2 : ParameterEntry) :
  List.length l = CV_NUM_PARAMETER ->
  derive l [] = (Next (fRange, fVoltageRange, ref), []) ->
  nth_error l 0 = Some e0 ->
  nth_error l 1 = Some e1 ->
  nth_error l 2 = Some e2 ->
  entry_name e0 = START_POTENTIAL ->
  entry_name e1 = LOWER_POTENTIAL ->
  entry_name e2 = UPPER_POTENTIAL ->
  forallb (passes l ref) (seq 3 8) = true ->
  (setup l = (Returned 0, success_calls l)
   <-> Z.min (entry_value e1) (entry_value e2) <= entry_value e0
       <= Z.max (entry_value e1) (entry_value e2)
       /\ Z.abs (entry_value e2 - entry_value e1) < fVoltageRange).
Proof.
  intros Hlen Hd H0 H1 H2 Hn0 Hn1 Hn2 Hrest.
  destruct (vertex_rows _ _ _ _ _ _ Hd H1 H2) as [HfR Href].
  split.
  - intros Hret.
    destruct (accepted_inv l _ Hret)
      as (_ & _ & fRange' & fV' & ref' & Hd' & Hall & Hlt).
    rewrite Hd in Hd'. injection Hd' as <- <- <-.
    unfold CV_NUM_PARAMETER in Hall. cbn [seq forallb] in Hall.
    apply andb_true_iff in Hall as [Hp0 _].
    destruct (passes_inv _ _ _ Hp0) as (p & r & Hp & Hr & _ & Hb).
    rewrite H0 in Hp. injection Hp as <-.
    rewrite Href in Hr. cbn in Hr. injection Hr as <-.
    apply in_bounds_iff in Hb. cbn [ref_lower ref_upper] in Hb.
    split; [exact Hb|]. rewrite <- HfR. exact Hlt.
  - intros [Hstart Hspan].
    rewrite (setup_all_pass l fRange fVoltageRange ref Hlen Hd).
    + destruct (Z.geb_spec fRange fVoltageRange); [lia|reflexivity].
    + change (seq 0 CV_NUM_PARAMETER) with ([0; 1; 2] ++ seq 3 8)%nat.
      rewrite forallb_app, Hrest. cbn [forallb].
      rewrite !andb_true_r, !andb_true_iff. rewrite Href.
      repeat split;
        (eapply passes_intro;
         [eassumption|reflexivity
         |unfold name_ok; apply String.eqb_eq; assumption
         |apply in_bounds_iff; cbn [ref_lower ref_upper]; lia]).
Qed.

(** ** Lists that the method cannot tell apart *)

(** Two lists of eleven entries whose checks agree position by position,
    and whose scan-range tests agree, get the same code. *)
Lemma same_checks_same_code (l l' : list ParameterEntry)
    (fRange fV fRange' fV' : Z) (ref ref' : list ReferenceBound) :
  List.length l = CV_NUM_PARAMETER ->
  List.length l' = CV_NUM_PARAMETER ->
  derive l [] = (Next (fRange, fV, ref), []) ->
  derive l' [] = (Next (fRange', fV', ref'), []) ->
  (forall i p r,
      nth_error l i = Some p -> nth_error ref i = Some r ->
      exists p' r',
        nth_error l' i = Some p' /\ nth_error ref' i = Some r'
        /\ name_ok r' p' = name_ok r p /\ in_bounds r' p' = in_bounds r p) ->
  (fRange' >=? fV') = (fRange >=? fV) ->
  fst (setup l') = fst (setup l).
Proof.
  intros Hlen Hlen' Hd Hd' Hsame Hscan.
  assert (Hall : forall range,
             forallb (passes l ref) range = true ->
             forallb (passes l' ref') range = true).
  { intros range Hr. apply forallb_forall. intros i Hin.
    rewrite forallb_forall in Hr. specialize (Hr i Hin).
    destruct (passes_inv _ _ _ Hr) as (p & r & Hp & Hrr & Hn & Hb).
    destruct (Hsame i p r Hp Hrr) as (p' & r' & Hp' & Hr' & Hn' & Hb').
    apply (passes_intro _ _ _ _ _ Hp' Hr'); congruence. }
  destruct (setup_eleven_cases l fRange fV ref Hlen Hd)
    as [(Hok & Hlt & Hs)|[(Hok & Hge & Hs)
       |[(i & p & r & Hi & Hpre & Hp & Hr & Hn & Hs)
        |(i & p & r & Hi & Hpre & Hp & Hr & Hn & Hb & Hs)]]];
    rewrite Hs.
  - rewrite (setup_all_pass l' fRange' fV' ref' Hlen' Hd' (Hall _ Hok)).
    rewrite Hscan. destruct (Z.geb_spec fRange fV); [lia|reflexivity].
  - rewrite (setup_all_pass l' fRange' fV' ref' Hlen' Hd' (Hall _ Hok)).
    rewrite Hscan. destruct (Z.geb_spec fRange fV); [reflexivity|lia].
  - destruct (Hsame i p r Hp Hr) as (p' & r' & Hp' & Hr' & Hn' & _).
    rewrite (setup_name_error l' fRange' fV' ref' i p' r'
               Hlen' Hd' Hi (Hall _ Hpre) Hp' Hr'); [reflexivity|congruence].
  - destruct (Hsame i p r Hp Hr) as (p' & r' & Hp' & Hr' & Hn' & Hb').
    rewrite (setup_bound_error l' fRange' fV' ref' i p' r'
               Hlen' Hd' Hi (Hall _ Hpre) Hp' Hr');
      [reflexivity|congruence..].
Qed.

(** A change of the three potentials that keeps distances and the order
    tests of the first three rows keeps the code. *)
Lemma map_potentials_same_code (f : Z -> Z) (l : list ParameterEntry) :
  (forall a b : Z, Z.abs (f b - f a) = Z.abs (b - a)) ->
  (forall s a b : Z,
      (Z.min (f a) (f b) <=? f s) && (f s <=? Z.max (f a) (f b))
      = (Z.min a b <=? s) && (s <=? Z.max a b)) ->
  (forall v a b env : Z,
      (Z.max (f a) (f b) - env <=? f v) && (f v <=? Z.min (f a) (f b) + env)
      = (Z.max a b - env <=? v) && (v <=? Z.min a b + env)) ->
  fst (setup (map_potentials f l)) = fst (setup l).
Proof.
  intros Hspan Hrow0 Hrow.
  destruct l as [|e0 [|e1 [|e2 rest]]]; try reflexivity.
  cbn [map_potentials].
  set (l := e0 :: e1 :: e2 :: rest).
  set (l' := mkEntry (entry_name e0) (f (entry_value e0))
             :: mkEntry (entry_name e1) (f (entry_value e1))
             :: mkEntry (entry_name e2) (f (entry_value e2)) :: rest).
  assert (Hlen' : List.length l' = List.length l) by reflexivity.
  destruct (Nat.eq_dec (List.length l) CV_NUM_PARAMETER) as [Hlen|Hlen].
  - destruct (nth_error rest 4) as [e7|] eqn:H7.
    2:{ apply nth_error_None in H7. cbn in Hlen.
        unfold CV_NUM_PARAMETER in Hlen. lia. }
    pose proof (derive_three e0 e1 e2 rest []) as Hd.
    pose proof (derive_three
                  (mkEntry (entry_name e0) (f (entry_value e0)))
                  (mkEntry (entry_name e1) (f (entry_value e1)))
                  (mkEntry (entry_name e2) (f (entry_value e2))) rest [])
      as Hd'.
    rewrite H7 in Hd, Hd'. cbv zeta in Hd, Hd'.
    cbn [entry_value] in Hd'. rewrite Hspan in Hd'.
    apply (same_checks_same_code l l' _ _ _ _ _ _ Hlen
             (eq_trans Hlen' Hlen) Hd Hd'); [|reflexivity].
    intros i p r Hp Hr.
    destruct i as [|[|[|i]]]; cbn in Hp, Hr.
    + injection Hp as <-. injection Hr as <-.
      eexists. eexists. split; [reflexivity|]. split; [reflexivity|].
      split; [reflexivity|]. apply Hrow0.
    + injection Hp as <-. injection Hr as <-.
      eexists. eexists. split; [reflexivity|]. split; [reflexivity|].
      split; [reflexivity|]. apply Hrow.
    + injection Hp as <-. injection Hr as <-.
      eexists. eexists. split; [reflexivity|]. split; [reflexivity|].
      split; [reflexivity|]. apply Hrow.
    + exists p, r. split; [exact Hp|]. split; [exact Hr|].
      split; reflexivity.
  - destruct (Nat.lt_ge_cases (List.length l) 8) as [Hlt|Hge].
    + rewrite !setup_too_short; [reflexivity|lia..].
    + rewrite !setup_wrong_arity; [reflexivity|lia..].
Qed.

(** X7.  With integer values, limits and offset (exact arithmetic) the
    method measures the three potentials against each other only: moving the
    start potential and both vertices by the same offset leaves the returned
    code (or the exception) as it is.  No absolute limit on a potential is
    enforced. *)
Theorem shift_invariance (d : Z) (l : list ParameterEntry) :
  fst (setup (shift_potentials d l)) = fst (setup l).
Proof.
  apply map_potentials_same_code.
  - intros a b. f_equal. lia.
  - intros s a b.
    destruct (Z.leb_spec (Z.min (a + d) (b + d)) (s + d)),
             (Z.leb_spec (s + d) (Z.max (a + d) (b + d))),
             (Z.leb_spec (Z.min a b) s), (Z.leb_spec s (Z.max a b));
      cbn [andb]; try reflexivity; lia.
  - intros v a b env.
    destruct (Z.leb_spec (Z.max (a + d) (b + d) - env) (v + d)),
             (Z.leb_spec (v + d) (Z.min (a + d) (b + d) + env)),
             (Z.leb_spec (Z.max a b - env) v),
             (Z.leb_spec v (Z.min a b + env));
      cbn [andb]; try reflexivity; lia.
Qed.

(** X8.  With integer values and limits (no NaN, exact arithmetic),
    changing the sign of the start potential and of both vertices leaves the
    returned code (or the exception) as it is. *)
Theorem mirror_invariance (l : list ParameterEntry) :
  fst (setup (mirror_potentials l)) = fst (setup l).
Proof.
  apply map_potentials_same_code.
  - intros a b. lia.
  - intros s a b.
    destruct (Z.leb_spec (Z.min (- a) (- b)) (- s)),
             (Z.leb_spec (- s) (Z.max (- a) (- b))),
             (Z.leb_spec (Z.min a b) s), (Z.leb_spec s (Z.max a b));
      cbn [andb]; try reflexivity; lia.
  - intros v a b env.
    destruct (Z.leb_spec (Z.max (- a) (- b) - env) (- v)),
             (Z.leb_spec (- v) (Z.min (- a) (- b) + env)),
             (Z.leb_spec (Z.max a b - env) v),
             (Z.leb_spec v (Z.min a b + env));
      cbn [andb]; try reflexivity; lia.
Qed.

(** ** Fixed and free working-electrode potential *)

(** X9.  When the fixed-mode envelope is not the larger one, whatever is
    accepted with the fixed-WE flag at 1 is also accepted with the flag at
    0, all other entries unchanged. *)
Theorem fixed_mode_acceptance_carries_over (l : list ParameterEntry)
    (e7 : ParameterEntry) (tr : list call) :
  VOLTAGE_RANGE_FWP <= VOLTAGE_RANGE * 2 ->
  nth_error l 7 = Some e7 ->
  entry_value e7 = 1 ->
  setup l = (Returned 0, tr) ->
  setup (set_value 7 0 l) = (Returned 0, success_calls (set_value 7 0 l)).
Proof.
  intros Hle H7 Hflag Hret.
  destruct (accepted_inv l tr Hret)
    as (Hlen & _ & fRange & fV & ref & Hd & Hall & Hlt).
  destruct l as [|a0 [|a1 [|a2 [|a3 [|a4 [|a5 [|a6 [|a7 tl]]]]]]]];
    try discriminate H7.
  cbn in H7. injection H7 as ->.
  rewrite derive_cases in Hd. cbn [nth_error] in Hd. cbv zeta in Hd.
  rewrite Hflag in Hd. cbn [Z.eqb Pos.eqb] in Hd.
  injection Hd as <- <- <-.
  cbn [set_value].
  set (l' := a0 :: a1 :: a2 :: a3 :: a4 :: a5 :: a6
             :: mkEntry (entry_name e7) 0 :: tl).
  assert (Hd' : derive l' [] =
                (Next (Z.abs (entry_value a2 - entry_value a1),
                       VOLTAGE_RANGE * 2,
                       listReferenceList
                         (Z.min (entry_value a1) (entry_value a2))
                         (Z.max (entry_value a1) (entry_value a2))
                         (VOLTAGE_RANGE * 2)), []))
    by (rewrite derive_cases; reflexivity).
  rewrite (setup_all_pass l' _ _ _ Hlen Hd').
  - destruct (Z.geb_spec (Z.abs (entry_value a2 - entry_value a1))
                (VOLTAGE_RANGE * 2)); [lia|reflexivity].
  - apply forallb_forall. intros i Hin.
    rewrite forallb_forall in Hall. specialize (Hall i Hin).
    destruct i as [|[|[|[|[|[|[|[|i]]]]]]]]; try exact Hall;
      destruct (passes_inv _ _ _ Hall) as (p & r & Hp & Hr & Hn & Hb);
      cbn in Hp, Hr; injection Hp as <-; injection Hr as <-;
      apply in_bounds_iff in Hb; cbn [ref_lower ref_upper] in Hb;
      (eapply passes_intro;
       [reflexivity|reflexivity|exact Hn
       |apply in_bounds_iff; cbn [ref_lower ref_upper entry_value]; lia]).
Qed.

(** ** Truthful error codes *)

(** X10.  A positional error code tells the truth about the list.  When the
    method returns the naming error of position [i], every earlier position
    passes both checks and the name at [i] differs from the name of row [i];
    when it returns the bounds error of position [i], every earlier position
    passes, the name at [i] is right and the value at [i] lies outside row
    [i].  In both cases no collaborator has been called. *)
Theorem positional_error_is_truthful (l : list ParameterEntry) (i : nat)
    (tr : list call) :
  (i <= 10)%nat ->
  (setup l = (Returned (EC_SETUP + EC_SE_PARAM_NOT_FOUND + Z.of_nat i), tr) ->
   tr = []
   /\ exists fRange fVoltageRange ref p r,
        derive l [] = (Next (fRange, fVoltageRange, ref), [])
        /\ forallb (passes l ref) (seq 0 i) = true
        /\ nth_error l i = Some p /\ nth_error ref i = Some r
        /\ entry_name p <> ref_name r)
  /\ (setup l
      = (Returned (EC_SETUP + EC_SE_PARAM_OUT_OF_BOUND + Z.of_nat i), tr) ->
      tr = []
      /\ exists fRange fVoltageRange ref p r,
           derive l [] = (Next (fRange, fVoltageRange, ref), [])
           /\ forallb (passes l ref) (seq 0 i) = true
           /\ nth_error l i = Some p /\ nth_error ref i = Some r
           /\ entry_name p = ref_name r
           /\ (entry_value p < ref_lower r \/ ref_upper r < entry_value p)).
Proof.
  intros Hi10.
  assert (Hgen : forall c,
             setup l = (Returned c, tr) ->
             c = EC_SETUP + EC_SE_PARAM_NOT_FOUND + Z.of_nat i
             \/ c = EC_SETUP + EC_SE_PARAM_OUT_OF_BOUND + Z.of_nat i ->
             exists fRange fV ref,
               List.length l = CV_NUM_PARAMETER
               /\ derive l [] = (Next (fRange, fV, ref), [])).
  { intros c Hret Hc.
    assert (Hlen : List.length l = CV_NUM_PARAMETER).
    { apply (returned_length l c tr Hret).
      unfold EC_SETUP, EC_SE_PARAM_NOT_FOUND, EC_SE_PARAM_OUT_OF_BOUND,
        EC_SE_AMOUNT_PARAMETER in *. lia. }
    assert (H8 : (8 <= List.length l)%nat) by (rewrite Hlen; cbv; lia).
    destruct (derive_long l [] H8) as (fRange & fV & lb & ub & Hd).
    eauto 6. }
  split; intros Hret.
  - destruct (Hgen _ Hret (or_introl eq_refl))
      as (fRange & fV & ref & Hlen & Hd).
    destruct (setup_eleven_cases l fRange fV ref Hlen Hd)
      as [(_ & _ & Hs)|[(_ & _ & Hs)
         |[(j & p & r & Hj & Hpre & Hp & Hr & Hn & Hs)
          |(j & p & r & Hj & _ & _ & _ & _ & _ & Hs)]]];
      rewrite Hs in Hret; pose proof Hret as Hc;
      apply returned_code_eq in Hc;
      unfold CV_NUM_PARAMETER in *;
      unfold EC_NO_ERROR, EC_SETUP, EC_SE_SCAN_RANGE_ERROR,
        EC_SE_PARAM_NOT_FOUND, EC_SE_PARAM_OUT_OF_BOUND in Hc;
      try lia.
    assert (j = i) by lia. subst j.
    split; [congruence|].
    exists fRange, fV, ref, p, r. repeat split; try assumption.
    unfold name_ok in Hn. apply String.eqb_neq. exact Hn.
  - destruct (Hgen _ Hret (or_intror eq_refl))
      as (fRange & fV & ref & Hlen & Hd).
    destruct (setup_eleven_cases l fRange fV ref Hlen Hd)
      as [(_ & _ & Hs)|[(_ & _ & Hs)
         |[(j & p & r & Hj & _ & _ & _ & _ & Hs)
          |(j & p & r & Hj & Hpre & Hp & Hr & Hn & Hb & Hs)]]];
      rewrite Hs in Hret; pose proof Hret as Hc;
      apply returned_code_eq in Hc;
      unfold CV_NUM_PARAMETER in *;
      unfold EC_NO_ERROR, EC_SETUP, EC_SE_SCAN_RANGE_ERROR,
        EC_SE_PARAM_NOT_FOUND, EC_SE_PARAM_OUT_OF_BOUND in Hc;
      try lia.
    assert (j = i) by lia. subst j.
    split; [congruence|].
    exists fRange, fV, ref, p, r. repeat split; try assumption.
    + unfold name_ok in Hn. apply String.eqb_eq. exact Hn.
    + apply in_bounds_false_iff. exact Hb.
Qed.

End MoreFacts.

(** * The further properties on concrete lists *)

Section ConcreteMore.

Local Existing Instance sample_limits.

Example run_wide_span :
  setup (cv_parameters 0 0 5000 0) = (Returned 11201, []).
Proof. vm_compute. reflexivity. Qed.

Example run_shifted :
  setup (shift_potentials 100000 code_scenario)
  = (Returned 0, success_calls (shift_potentials 100000 code_scenario)).
Proof. vm_compute. reflexivity. Qed.

(** X3 at a span equal to the envelope. *)
Lemma scan_range_error_only_at_equality_witness :
  exists e1 e2 e7,
    nth_error boundary_scenario 1 = Some e1
    /\ nth_error boundary_scenario 2 = Some e2
    /\ nth_error boundary_scenario 7 = Some e7
    /\ Z.abs (entry_value e2 - entry_value e1)
       = if entry_value e7 =? 1 then VOLTAGE_RANGE_FWP
         else VOLTAGE_RANGE * 2.
Proof.
  apply (scan_range_error_only_at_equality boundary_scenario []).
  reflexivity.
Defined.

(** X4 at the vertices 0 and 5000 with the envelope 4000. *)
Lemma wide_span_is_first_vertex_error_witness :
  setup (cv_parameters 0 0 5000 0)
  = (Returned (EC_SETUP + EC_SE_PARAM_OUT_OF_BOUND + Z.of_nat 1), []).
Proof.
  refine (wide_span_is_first_vertex_error (cv_parameters 0 0 5000 0)
            5000 4000 (listReferenceList 0 5000 4000)
            (mkEntry LOWER_POTENTIAL 0) _ _ _ _ _ _);
    [reflexivity..|lia].
Defined.

(** X5 at the scenario in table order. *)
Lemma accepted_list_shape_witness :
  success_calls code_scenario = success_calls code_scenario
  /\ map entry_name code_scenario = code_positional_names
  /\ exists fRange fVoltageRange ref,
       derive code_scenario [] = (Next (fRange, fVoltageRange, ref), [])
       /\ 0 <= fRange < fVoltageRange
       /\ Forall2 (fun p r => ref_lower r <= entry_value p <= ref_upper r)
            code_scenario ref.
Proof.
  apply (accepted_list_shape code_scenario (success_calls code_scenario)).
  reflexivity.
Defined.

(** X6 at the scenario in table order. *)
Lemma acceptance_closed_form_witness :
  setup code_scenario = (Returned 0, success_calls code_scenario)
  <-> Z.min 500 (-500) <= 0 <= Z.max 500 (-500)
      /\ Z.abs (-500 - 500) < 4000.
Proof.
  refine (acceptance_closed_form code_scenario
            1000 4000 (listReferenceList (-500) 500 4000)
            (mkEntry "StartVoltage" 0) (mkEntry "FirstVertex" 500)
            (mkEntry "SecondVertex" (-500)) _ _ _ _ _ _ _ _ _);
    reflexivity.
Defined.

(** X9 at the vertices 0 and 2000 with the fixed-WE flag set. *)
Lemma fixed_mode_acceptance_carries_over_witness :
  setup (set_value 7 0 (cv_parameters 0 0 2000 1))
  = (Returned 0, success_calls (set_value 7 0 (cv_parameters 0 0 2000 1))).
Proof.
  refine (fixed_mode_acceptance_carries_over (cv_parameters 0 0 2000 1)
            (mkEntry FIXED_WE_POTENTIAL 1)
            (success_calls (cv_parameters 0 0 2000 1)) _ _ _ _).
  - cbn [VOLTAGE_RANGE_FWP VOLTAGE_RANGE sample_limits]. lia.
  - reflexivity.
  - reflexivity.
  - reflexivity.
Defined.

(** X10 at the scenario of the specification, rejected at position 6. *)
Lemma positional_error_is_truthful_witness :
  @nil call = []
  /\ exists fRange fVoltageRange ref p r,
       derive spec_scenario [] = (Next (fRange, fVoltageRange, ref), [])
       /\ forallb (passes spec_scenario ref) (seq 0 6) = true
       /\ nth_error spec_scenario 6 = Some p /\ nth_error ref 6 = Some r
       /\ entry_name p <> ref_name r.
Proof.
  assert (H : (6 <= 10)%nat) by lia.
  apply (proj1 (positional_error_is_truthful spec_scenario 6 [] H)).
  reflexivity.
Defined.

End ConcreteMore.

(** * The method on floats *)

(** ** Exceptions, on integers and on floats *)






Example run_float_scenario :
  Binary64.setup Binary64.sample_limits
    (Binary64.scenario 0 500 (-500))
  = (Returned 0,
     [ Binary64.save_ExperimentType CV;
       Binary64.save_ExperimentParmeters (Binary64.scenario 0 500 (-500));
       Binary64.setup_ExportFiles ]).
Proof. vm_compute. reflexivity. Qed.

Example run_float_rows :
  Binary64.derive Binary64.sample_limits
    (Binary64.scenario 0 Binary64.minus_2193_8 Binary64.plus_1806_2)
  = Some (4000%float, 4000%float,
          Binary64.listReferenceList Binary64.sample_limits
            Binary64.minus_2193_8 Binary64.plus_1806_2 4000%float)
  /\ PrimFloat.sub Binary64.plus_1806_2 4000 = Binary64.minus_2193_8
  /\ PrimFloat.add Binary64.minus_2193_8 4000 = 0x1.c38ccccccccccp+10%float
  /\ PrimFloat.ltb (PrimFloat.add Binary64.minus_2193_8 4000)
       Binary64.plus_1806_2 = true.
Proof. vm_compute. repeat split. Qed.

